(** * pyasic: the Antminer backends (Modern and Old dialects)

    A shallow embedding of [pyasic/miners/backends/antminer.py].

    The extractors of that file read JSON payloads with Python's dynamic
    operations (subscripting, [dict.get], truthiness, [round], [sum], ...)
    and rely on which exception class each operation raises, because every
    [try] block catches a specific set of classes.  The embedding therefore
    models
    - JSON payloads as an inductive type [value];
    - the exception classes that matter as an enumeration [exn];
    - every Python operation used by the source as a total function into
      [res], the sum of a result and a raised exception;
    - the device handle (cached light state, issued transport calls) and the
      local list of hashboards with a small state-and-error monad.

    Floats are modelled as exact rationals kept in lowest terms.  The
    [OverflowError] that Python raises when an integer does not fit a float
    (in [float(n)], in [n + x] and [n / x] with a float [x], and when the
    quotient of two integers is out of range) is modelled; binary64
    rounding and the non-finite values a float operation can produce are
    outside the model.
    Strings are byte strings, which agrees with Python on ASCII text. *)

From Stdlib Require Import ZArith QArith List String Ascii Bool Lia.
From Stdlib Require Import DecimalString.
Import ListNotations.

Local Open Scope string_scope.
Local Open Scope list_scope.
Local Open Scope Z_scope.

(** ** Exceptions and results *)

Inductive exn : Type :=
| APIError
| KeyError
| IndexError
| TypeError
| ValueError
| ZeroDivisionError
| AttributeError
| OverflowError.

Inductive res (A : Type) : Type :=
| Ok (a : A)
| Raise (e : exn).

Arguments Ok {A} a.
Arguments Raise {A} e.

(** [except LookupError]: the base class of [KeyError] and [IndexError]. *)
Definition is_LookupError (e : exn) : bool :=
  match e with KeyError | IndexError => true | _ => false end.

(** [except (KeyError, IndexError)] catches the same two classes;
    [except KeyError] only the first. *)
Definition is_KeyError (e : exn) : bool :=
  match e with KeyError => true | _ => false end.

Definition is_APIError (e : exn) : bool :=
  match e with APIError => true | _ => false end.

(** [except (IndexError, KeyError, ValueError, TypeError)] *)
Definition is_old_board_error (e : exn) : bool :=
  match e with
  | IndexError | KeyError | ValueError | TypeError => true
  | _ => false
  end.

(** ** JSON payloads *)

#[warnings="-register-all"]
Inductive value : Type :=
| VNone
| VBool (b : bool)
| VInt (z : Z)
| VFloat (q : Q)
| VStr (s : string)
| VList (l : list value)
| VDict (d : list (string * value)).

(** A decoded JSON object: keys are strings, the first binding of a key is
    the one a lookup sees. *)
Fixpoint dict_lookup (d : list (string * value)) (k : string) : option value :=
  match d with
  | [] => None
  | (k', v) :: d' => if String.eqb k' k then Some v else dict_lookup d' k
  end.

(** ** Python's operations on payloads *)

Module Py.

(** [bool(v)], the test of [if v:] and [not v]. *)
Definition truthy (v : value) : bool :=
  match v with
  | VNone => false
  | VBool b => b
  | VInt z => negb (z =? 0)
  | VFloat q => negb (Qeq_bool q 0)
  | VStr s => negb (String.eqb s "")
  | VList l => match l with [] => false | _ => true end
  | VDict d => match d with [] => false | _ => true end
  end.

(** The numeric value of an [int], [bool] or [float]. *)
Definition to_Q (v : value) : option Q :=
  match v with
  | VInt z => Some (inject_Z z)
  | VBool b => Some (if b then 1%Q else 0%Q)
  | VFloat q => Some q
  | _ => None
  end.

Definition is_intlike (v : value) : option Z :=
  match v with
  | VInt z => Some z
  | VBool b => Some (if b then 1 else 0)
  | _ => None
  end.

(** [v == 0] *)
Definition eq_zero (v : value) : bool :=
  match to_Q v with
  | Some q => Qeq_bool q 0
  | None => false
  end.

(** [v == s] for a string literal [s]. *)
Definition eq_str (v : value) (s : string) : bool :=
  match v with
  | VStr s' => String.eqb s' s
  | _ => false
  end.

(** [a == b] on numbers ([15000 == 15000.0] holds in Python). *)
Definition num_eq (a b : value) : bool :=
  match to_Q a, to_Q b with
  | Some x, Some y => Qeq_bool x y
  | _, _ => false
  end.

(** [v > 0]; a non-number cannot be ordered against an [int]. *)
Definition gt_zero (v : value) : res bool :=
  match to_Q v with
  | Some q => Ok (negb (Qle_bool q 0))
  | None => Raise TypeError
  end.

(** [v[k]] for a string key [k]. *)
Definition getitem_key (v : value) (k : string) : res value :=
  match v with
  | VDict d =>
      match dict_lookup d k with
      | Some x => Ok x
      | None => Raise KeyError
      end
  | _ => Raise TypeError
  end.

(** Python's index normalisation: [-len <= i < len], negative indices count
    from the end. *)
Definition norm_index (len : nat) (i : Z) : option nat :=
  if (0 <=? i) && (i <? Z.of_nat len) then Some (Z.to_nat i)
  else if (i <? 0) && (- Z.of_nat len <=? i) then Some (Z.to_nat (Z.of_nat len + i))
  else None.

(** [v[i]] for an integer literal [i]. *)
Definition getitem_idx (v : value) (i : Z) : res value :=
  match v with
  | VList l =>
      match norm_index (List.length l) i with
      | Some n =>
          match nth_error l n with
          | Some x => Ok x
          | None => Raise IndexError
          end
      | None => Raise IndexError
      end
  | VStr s =>
      match norm_index (String.length s) i with
      | Some n =>
          match String.get n s with
          | Some c => Ok (VStr (String c EmptyString))
          | None => Raise IndexError
          end
      | None => Raise IndexError
      end
  | VDict _ => Raise KeyError
  | _ => Raise TypeError
  end.

(** [v.get(k)] and [v.get(k, dflt)]: only a [dict] has the method. *)
Definition get_default (v : value) (k : string) (dflt : value) : res value :=
  match v with
  | VDict d =>
      match dict_lookup d k with
      | Some x => Ok x
      | None => Ok dflt
      end
  | _ => Raise AttributeError
  end.

Definition get (v : value) (k : string) : res value := get_default v k VNone.

(** [len(v)] *)
Definition len (v : value) : res Z :=
  match v with
  | VList l => Ok (Z.of_nat (List.length l))
  | VStr s => Ok (Z.of_nat (String.length s))
  | VDict d => Ok (Z.of_nat (List.length d))
  | _ => Raise TypeError
  end.

Fixpoint chars (s : string) : list value :=
  match s with
  | EmptyString => []
  | String c s' => VStr (String c EmptyString) :: chars s'
  end.

(** [iter(v)]: the elements a [for] loop or [filter] visits. *)
Definition iter (v : value) : res (list value) :=
  match v with
  | VList l => Ok l
  | VStr s => Ok (chars s)
  | VDict d => Ok (map (fun kv => VStr (fst kv)) d)
  | _ => Raise TypeError
  end.

(** The least magnitude that no longer rounds to a finite binary64 value:
    [2^1024 - 2^970], half way between the largest float and [2^1024]. *)
Definition float_limit : Z := 2 ^ 1024 - 2 ^ 970.
#[global] Arguments float_limit : simpl never.

(** An integer that converts to a float; any other raises
    [OverflowError]. *)
Definition convertible (z : Z) : bool := Z.abs z <? float_limit.

(** An operand that an arithmetic operation with a float can take as a
    float: a float, or an [int] that converts. *)
Definition float_ok (v : value) : bool :=
  match v with
  | VInt z => convertible z
  | _ => true
  end.

(** [a / b], true division.  Two integers are divided exactly: a zero
    divisor is checked first, then the range of the quotient.  With a float
    operand both are converted first, then a zero divisor is checked. *)
Definition truediv (a b : value) : res value :=
  match is_intlike a, is_intlike b with
  | Some x, Some y =>
      if y =? 0 then Raise ZeroDivisionError
      else if Z.abs x <? float_limit * Z.abs y
           then Ok (VFloat (Qred (inject_Z x / inject_Z y)))
           else Raise OverflowError
  | _, _ =>
      match to_Q a, to_Q b with
      | Some x, Some y =>
          if float_ok a && float_ok b then
            if Qeq_bool y 0 then Raise ZeroDivisionError
            else Ok (VFloat (Qred (x / y)))
          else Raise OverflowError
      | _, _ => Raise TypeError
      end
  end.

(** [a + b] on numbers, as [sum] uses it: two integers add exactly, with a
    float operand both are converted first. *)
Definition add (a b : value) : res value :=
  match is_intlike a, is_intlike b with
  | Some x, Some y => Ok (VInt (x + y))
  | _, _ =>
      match to_Q a, to_Q b with
      | Some x, Some y =>
          if float_ok a && float_ok b
          then Ok (VFloat (Qred (x + y)))
          else Raise OverflowError
      | _, _ => Raise TypeError
      end
  end.

(** [sum(l)]: a left fold of [+] from the integer 0. *)
Fixpoint sum_from (acc : value) (l : list value) : res value :=
  match l with
  | [] => Ok acc
  | x :: l' =>
      match add acc x with
      | Ok acc' => sum_from acc' l'
      | Raise e => Raise e
      end
  end.

Definition sum (l : list value) : res value := sum_from (VInt 0) l.

(** Rounding to the nearest integer, ties to the even one. *)
Definition round_half_even (q : Q) : Z :=
  let n := Qnum q in
  let d := Z.pos (Qden q) in
  let f := n / d in
  match 2 * (n mod d) ?= d with
  | Lt => f
  | Gt => f + 1
  | Eq => if Z.even f then f else f + 1
  end.

(** [round(v)]: an [int] for every number. *)
Definition round0 (v : value) : res value :=
  match v with
  | VFloat q => Ok (VInt (round_half_even q))
  | VInt z => Ok (VInt z)
  | VBool b => Ok (VInt (if b then 1 else 0))
  | _ => Raise TypeError
  end.

(** [round(v, 2)]: a [float] stays a [float], an [int] stays an [int]. *)
Definition round2 (v : value) : res value :=
  match v with
  | VFloat q => Ok (VFloat (Qred (round_half_even (q * 100) # 100)))
  | VInt z => Ok (VInt z)
  | VBool b => Ok (VInt (if b then 1 else 0))
  | _ => Raise TypeError
  end.

(** [v.isdigit()]: a method of [str] only; true for a non-empty string of
    decimal digits. *)
Definition is_digit (c : ascii) : bool :=
  let n := Z.of_nat (nat_of_ascii c) in (48 <=? n) && (n <=? 57).

Fixpoint all_digits (s : string) : bool :=
  match s with
  | EmptyString => true
  | String c s' => is_digit c && all_digits s'
  end.

Definition isdigit (v : value) : res bool :=
  match v with
  | VStr s => Ok (negb (String.eqb s "") && all_digits s)
  | _ => Raise AttributeError
  end.

(** The decimal text of an integer, as an f-string prints it. *)
Definition str_of_int (i : Z) : string := NilZero.string_of_int (Z.to_int i).

End Py.

(** ** The state-and-error monad

    A computation reads and updates a state [St] and either returns or
    raises.  The state survives a raise: Python's mutations are in place, so
    whatever was written before the exception stays written. *)

Definition rbind {A B} (r : res A) (f : A -> res B) : res B :=
  match r with
  | Ok a => f a
  | Raise e => Raise e
  end.

Definition M (St A : Type) : Type := St -> res A * St.

Definition ret {St A} (a : A) : M St A := fun s => (Ok a, s).

Definition bind {St A B} (m : M St A) (f : A -> M St B) : M St B :=
  fun s =>
    match m s with
    | (Ok a, s') => f a s'
    | (Raise e, s') => (Raise e, s')
    end.

Definition raise {St A} (e : exn) : M St A := fun s => (Raise e, s).

Definition lift {St A} (r : res A) : M St A := fun s => (r, s).

Definition get_state {St} : M St St := fun s => (Ok s, s).

Definition put_state {St} (s : St) : M St unit := fun _ => (Ok tt, s).

(** [try: m except <classes caught>: handler] *)
Definition try_except {St A} (m : M St A) (caught : exn -> bool)
  (handler : M St A) : M St A :=
  fun s =>
    match m s with
    | (Ok a, s') => (Ok a, s')
    | (Raise e, s') => if caught e then handler s' else (Raise e, s')
    end.

(** [for x in l: body x] *)
Fixpoint for_each {St A} (l : list A) (body : A -> M St unit) : M St unit :=
  match l with
  | [] => ret tt
  | x :: l' => bind (body x) (fun _ => for_each l' body)
  end.

Declare Scope py_scope.
Delimit Scope py_scope with py.

Notation "x <- m ;; k" := (bind m (fun x => k))
  (at level 61, m at next level, right associativity) : py_scope.
Notation "m ;;; k" := (bind m (fun _ => k))
  (at level 61, right associativity) : py_scope.
Notation "x <<- r ;; k" := (rbind r (fun x => k))
  (at level 61, r at next level, right associativity) : py_scope.

Local Open Scope py_scope.

(** ** Data classes

    Modelled from the spec: the classes [HashBoard] and [Fan] of
    [pyasic.data] are not part of the sources at hand.  The fields are the
    ones of the spec's data model; every optional field starts unset
    ([None]), [missing] starts true, a fan's speed starts at 0.  The default
    of [chips] is not fixed by the spec and is a parameter. *)

Record HashBoard : Type := mkHashBoard {
  slot : Z;
  hashrate : value;
  temp : value;
  chip_temp : value;
  chips : value;
  expected_chips : value;
  serial_number : value;
  missing : bool
}.

Definition HashBoard_new (chips_default : value) (slot : Z) (expected_chips : value)
  : HashBoard :=
  mkHashBoard slot VNone VNone VNone chips_default expected_chips VNone true.

Definition set_hashrate (v : value) (h : HashBoard) : HashBoard :=
  mkHashBoard (slot h) v (temp h) (chip_temp h) (chips h) (expected_chips h)
    (serial_number h) (missing h).

Definition set_temp (v : value) (h : HashBoard) : HashBoard :=
  mkHashBoard (slot h) (hashrate h) v (chip_temp h) (chips h) (expected_chips h)
    (serial_number h) (missing h).

Definition set_chip_temp (v : value) (h : HashBoard) : HashBoard :=
  mkHashBoard (slot h) (hashrate h) (temp h) v (chips h) (expected_chips h)
    (serial_number h) (missing h).

Definition set_chips (v : value) (h : HashBoard) : HashBoard :=
  mkHashBoard (slot h) (hashrate h) (temp h) (chip_temp h) v (expected_chips h)
    (serial_number h) (missing h).

Definition set_serial_number (v : value) (h : HashBoard) : HashBoard :=
  mkHashBoard (slot h) (hashrate h) (temp h) (chip_temp h) (chips h)
    (expected_chips h) v (missing h).

Definition set_missing (b : bool) (h : HashBoard) : HashBoard :=
  mkHashBoard (slot h) (hashrate h) (temp h) (chip_temp h) (chips h)
    (expected_chips h) (serial_number h) b.

Record Fan : Type := mkFan { speed : value }.

Definition Fan_new : Fan := mkFan (VInt 0).

(** ** Lists of objects updated in place *)

(** [l[n] = f(l[n])] for an index already normalised. *)
Fixpoint list_update {A} (n : nat) (f : A -> A) (l : list A) : list A :=
  match l, n with
  | [], _ => []
  | x :: l', O => f x :: l'
  | x :: l', S n' => x :: list_update n' f l'
  end.

(** The position [l[idx]] designates in a list of [len] objects: an [int]
    (or a [bool], its subclass) in range, counted from the end when
    negative. *)
Definition list_index (len : nat) (idx : value) : res nat :=
  match Py.is_intlike idx with
  | Some i =>
      match Py.norm_index len i with
      | Some n => Ok n
      | None => Raise IndexError
      end
  | None => Raise TypeError
  end.

(** [range(n)] and [range(start, stop, step)] for a positive step. *)
Definition range (n : nat) : list Z := map Z.of_nat (seq 0 n).

Definition range_from (start : Z) (n : nat) : list Z :=
  map (fun k => start + k) (range n).

Definition range_step (start stop step : Z) : list Z :=
  map (fun k => start + step * k)
    (range (Z.to_nat ((stop - start + step - 1) / step))).

(** ** The device handle and its transports

    The RPC and web clients are external collaborators.  A transport call
    either fails with [APIError] or returns a payload; what it returns may
    depend on the calls issued before it.  The handle records the calls it
    issued, so that a property can say that no query was made. *)

Inductive command : Type :=
| WebGetSystemInfo
| WebGetNetworkInfo
| WebGetBlinkStatus
| WebBlink (blink : bool)
| WebGetMinerConf
| RpcStats
| RpcStatsNew
| RpcSummary.

Definition transport : Type := list command -> command -> option value.

Record handle : Type := mkHandle {
  light : value;
  calls : list command
}.

Definition set_light (v : value) : M handle unit :=
  fun h => (Ok tt, mkHandle v (calls h)).

(** The attributes of a miner that no method of the backends changes: its
    transports, the expected counts of its hardware model, and the two
    parsers of the Python runtime behind [float(str)] and [int(str)]
    ([None] where the runtime raises [ValueError]).  The default of
    [HashBoard.chips] is kept here too. *)
Record miner : Type := mkMiner {
  tr : transport;
  expected_hashboards : nat;
  expected_chips_of : value;
  expected_fans : nat;
  chips_default : value;
  float_of_str : string -> option Q;
  int_of_str : string -> option Z
}.

(** [await self.web.<command>()] or [await self.api.<command>()] *)
Definition call (self : miner) (c : command) : M handle value :=
  fun h =>
    (match tr self (calls h) c with
     | Some v => Ok v
     | None => Raise APIError
     end,
     mkHandle (light h) (calls h ++ [c])).

(** A block that works on a local list and hands it back; when the block
    raises, the exception leaves the method and the list is lost. *)
Definition with_local {H St} (s0 : St) (m : M St unit) : M H St :=
  fun h =>
    match m s0 with
    | (Ok _, s) => (Ok s, h)
    | (Raise e, _) => (Raise e, h)
    end.

(** [float(v)] and [int(v)] *)
Definition py_float (self : miner) (v : value) : res value :=
  match v with
  | VInt z =>
      if Py.convertible z then Ok (VFloat (inject_Z z)) else Raise OverflowError
  | VBool b => Ok (VFloat (if b then 1%Q else 0%Q))
  | VFloat q => Ok (VFloat q)
  | VStr s =>
      match float_of_str self s with
      | Some q => Ok (VFloat q)
      | None => Raise ValueError
      end
  | _ => Raise TypeError
  end.

Definition py_int (self : miner) (v : value) : res value :=
  match v with
  | VInt z => Ok (VInt z)
  | VBool b => Ok (VInt (if b then 1 else 0))
  | VFloat q => Ok (VInt (Z.quot (Qnum q) (Z.pos (Qden q))))
  | VStr s =>
      match int_of_str self s with
      | Some z => Ok (VInt z)
      | None => Raise ValueError
      end
  | _ => Raise TypeError
  end.

(** [if not payload: try: payload = await <call> except APIError: pass] *)
Definition fetch_if_missing (self : miner) (payload : value) (c : command)
  : M handle value :=
  if negb (Py.truthy payload)
  then try_except (call self c) is_APIError (ret payload)
  else ret payload.

(** ** The Modern dialect: class [AntminerModern] *)

Module AntminerModern.

Definition fault_light_on (self : miner) : M handle value :=
  data <- call self (WebBlink true);;
  (if Py.truthy data then
     code <- lift (Py.get data "code");;
     if Py.eq_str code "B000" then set_light (VBool true) else ret tt
   else ret tt);;;
  h <- get_state;;
  ret (light h).

Definition fault_light_off (self : miner) : M handle value :=
  data <- call self (WebBlink false);;
  (if Py.truthy data then
     code <- lift (Py.get data "code");;
     if Py.eq_str code "B100" then set_light (VBool false) else ret tt
   else ret tt);;;
  h <- get_state;;
  ret (light h).

Definition _get_hostname (self : miner) (web_get_system_info : value)
  : M handle value :=
  info <- fetch_if_missing self web_get_system_info WebGetSystemInfo;;
  if Py.truthy info then
    try_except (lift (Py.getitem_key info "hostname")) is_KeyError (ret VNone)
  else ret VNone.

(** The method returns from inside its first lookup when that succeeds;
    [None] below stands for falling through to the next statement. *)
Definition _get_mac (self : miner) (web_get_system_info : value)
  : M handle value :=
  info <- fetch_if_missing self web_get_system_info WebGetSystemInfo;;
  returned <-
    (if Py.truthy info then
       try_except (v <- lift (Py.getitem_key info "macaddr");; ret (Some v))
         is_KeyError (ret None)
     else ret None);;
  match returned with
  | Some v => ret v
  | None =>
      try_except
        (data <- call self WebGetNetworkInfo;;
         if Py.truthy data then lift (Py.getitem_key data "macaddr")
         else ret VNone)
        is_KeyError (ret VNone)
  end.

(** [list(filter(lambda x: not x == 0, v))] *)
Definition nonzero_readings (v : value) : res (list value) :=
  l <<- Py.iter v;;
  Ok (filter (fun x => negb (Py.eq_zero x)) l).

(** [sum(data) / len(data)] *)
Definition mean (data : list value) : res value :=
  s <<- Py.sum data;;
  Py.truediv s (VInt (Z.of_nat (List.length data))).

(** [hashboards[board["index"]].<field> = ...]: the right-hand side has
    been evaluated; the target is evaluated now. *)
Definition assign (board : value) (f : HashBoard -> HashBoard)
  : M (list HashBoard) unit :=
  idx <- lift (Py.getitem_key board "index");;
  fun hashboards =>
    match list_index (List.length hashboards) idx with
    | Ok n => (Ok tt, list_update n f hashboards)
    | Raise e => (Raise e, hashboards)
    end.

(** The body of [for board in api_stats["STATS"][0]["chain"]]. *)
Definition board_step (board : value) : M (list HashBoard) unit :=
  rate <- lift (r <<- Py.getitem_key board "rate_real";;
                q <<- Py.truediv r (VInt 1000);;
                Py.round2 q);;
  assign board (set_hashrate rate);;;
  asic_num <- lift (Py.getitem_key board "asic_num");;
  assign board (set_chips asic_num);;;
  board_temp_data <- lift (t <<- Py.getitem_key board "temp_pcb";;
                           nonzero_readings t);;
  board_temp <- lift (mean board_temp_data);;
  assign board (set_temp board_temp);;;
  chip_temp_data <- lift (t <<- Py.getitem_key board "temp_chip";;
                          nonzero_readings t);;
  chip_temp <- lift (mean chip_temp_data);;
  assign board (set_chip_temp chip_temp);;;
  sn <- lift (Py.getitem_key board "sn");;
  assign board (set_serial_number sn);;;
  assign board (set_missing false).

(** The [try] block of [_get_hashboards]. *)
Definition read_chains (api_stats : value) : M (list HashBoard) unit :=
  chain <- lift (stats <<- Py.getitem_key api_stats "STATS";;
                 s0 <<- Py.getitem_idx stats 0;;
                 c <<- Py.getitem_key s0 "chain";;
                 Py.iter c);;
  for_each chain board_step.

Definition fresh_boards (self : miner) : list HashBoard :=
  map (fun idx => HashBoard_new (chips_default self) idx (expected_chips_of self))
    (range (expected_hashboards self)).

Definition _get_hashboards (self : miner) : M handle (list HashBoard) :=
  let hashboards := fresh_boards self in
  fetched <- try_except (s <- call self RpcStatsNew;; ret (Some s))
               is_APIError (ret None);;
  match fetched with
  | None => ret hashboards
  | Some api_stats =>
      if Py.truthy api_stats then
        with_local hashboards
          (try_except (read_chains api_stats) is_LookupError (ret tt))
      else ret hashboards
  end.

Definition _get_fault_light (self : miner) (web_get_blink_status : value)
  : M handle value :=
  h <- get_state;;
  if Py.truthy (light h) then ret (light h)
  else
    status <- fetch_if_missing self web_get_blink_status WebGetBlinkStatus;;
    (if Py.truthy status then
       try_except (b <- lift (Py.getitem_key status "blink");; set_light b)
         is_KeyError (ret tt)
     else ret tt);;;
    h' <- get_state;;
    ret (light h').

Definition _get_expected_hashrate (self : miner) (api_stats : value)
  : M handle value :=
  stats <- fetch_if_missing self api_stats RpcStats;;
  if Py.truthy stats then
    try_except
      (s <- lift (Py.getitem_key stats "STATS");;
       s1 <- lift (Py.getitem_idx s 1);;
       expected_rate <- lift (Py.getitem_key s1 "total_rateideal");;
       rate_unit <-
         try_except
           (s' <- lift (Py.getitem_key stats "STATS");;
            s1' <- lift (Py.getitem_idx s' 1);;
            lift (Py.getitem_key s1' "rate_unit"))
           is_KeyError (ret (VStr "GH"));;
       if Py.eq_str rate_unit "GH" then
         q <- lift (Py.truediv expected_rate (VInt 1000));;
         lift (Py.round2 q)
       else if Py.eq_str rate_unit "MH" then
         q <- lift (Py.truediv expected_rate (VInt 1000000));;
         lift (Py.round2 q)
       else lift (Py.round2 expected_rate))
      is_LookupError (ret VNone)
  else ret VNone.

Definition _is_mining (self : miner) (web_get_conf : value) : M handle value :=
  conf <- fetch_if_missing self web_get_conf WebGetMinerConf;;
  if Py.truthy conf then
    try_except
      (mode <- lift (Py.getitem_key conf "bitmain-work-mode");;
       digits <- lift (Py.isdigit mode);;
       if digits then
         mode' <- lift (Py.getitem_key conf "bitmain-work-mode");;
         n <- lift (py_int self mode');;
         ret (VBool (negb (Py.num_eq n (VInt 1))))
       else ret (VBool false))
      is_LookupError (ret VNone)
  else ret VNone.

Definition _get_uptime (self : miner) (api_stats : value) : M handle value :=
  stats <- fetch_if_missing self api_stats RpcStats;;
  if Py.truthy stats then
    try_except
      (s <- lift (Py.getitem_key stats "STATS");;
       s1 <- lift (Py.getitem_idx s 1);;
       elapsed <- lift (Py.getitem_key s1 "Elapsed");;
       lift (py_int self elapsed))
      is_LookupError (ret VNone)
  else ret VNone.

(** The body of [for item in web_summary["SUMMARY"][0]["status"]], with its
    own [try ... except KeyError: continue].  [X19Error] is the constructor
    of the error class, which is not part of the sources at hand. *)
Definition error_of_item {E : Type} (X19Error : value -> E) (item : value)
  : M (list E) unit :=
  try_except
    (status <- lift (Py.getitem_key item "status");;
     if negb (Py.eq_str status "s") then
       msg <- lift (Py.getitem_key item "msg");;
       fun errors => (Ok tt, errors ++ [X19Error msg])
     else ret tt)
    is_KeyError (ret tt).

(** [_get_errors]; [summary] stands for the query [self.web.summary()] of
    the web client. *)
Definition _get_errors {E : Type} (X19Error : value -> E)
  (summary : M handle value) (web_summary : value) : M handle (list E) :=
  ws <- (if negb (Py.truthy web_summary)
         then try_except summary is_APIError (ret web_summary)
         else ret web_summary);;
  let errors := [] in
  if Py.truthy ws then
    with_local errors
      (try_except
         (items <- lift (s <<- Py.getitem_key ws "SUMMARY";;
                         s0 <<- Py.getitem_idx s 0;;
                         st <<- Py.getitem_key s0 "status";;
                         Py.iter st);;
          for_each items (error_of_item X19Error))
         is_LookupError (ret tt))
  else ret errors.

(** [set_hostname]; [set_network_conf ip dns gateway subnet_mask hostname
    protocol] stands for the command of the same name of the web client. *)
Definition set_hostname (self : miner)
  (set_network_conf : value -> value -> value -> value -> value -> Z -> M handle value)
  (hostname : value) : M handle unit :=
  cfg <- call self WebGetNetworkInfo;;
  dns <- lift (Py.getitem_key cfg "conf_dnsservers");;
  gateway <- lift (Py.getitem_key cfg "conf_gateway");;
  ip <- lift (Py.getitem_key cfg "conf_ipaddress");;
  subnet_mask <- lift (Py.getitem_key cfg "conf_netmask");;
  nettype <- lift (Py.getitem_key cfg "conf_nettype");;
  let protocol := if Py.eq_str nettype "DHCP" then 1 else 2 in
  set_network_conf ip dns gateway subnet_mask hostname protocol;;;
  ret tt.

End AntminerModern.

(** ** The Old dialect: class [AntminerOld] *)

(** Runs a block on a local variable and returns the variable's final
    content. *)
Definition exec {St} (m : M St unit) (s0 : St) : res St :=
  match m s0 with
  | (Ok _, s) => Ok s
  | (Raise e, _) => Raise e
  end.

(** The offset scan shared by the two repeating groups.  The local variable
    (the state) is the offset found so far, [-1] while none is:
<<
    for num in cands:
        for k in range(width):
            v = <probe at suffix num + k>
            if v and not v == 0 and offset == -1:
                offset = <accept num>
>>  *)
Definition scan (cands : list Z) (width : nat) (probe : Z -> res value)
  (accept : Z -> Z) : M Z unit :=
  for_each cands (fun num =>
    for_each (range width) (fun k =>
      v <- lift (probe (num + k));;
      offset <- get_state;;
      if Py.truthy v && negb (Py.eq_zero v) && (offset =? -1)
      then put_state (accept num)
      else ret tt)).

(** [if offset == -1: offset = dflt] *)
Definition or_default (dflt : Z) : M Z unit :=
  offset <- get_state;;
  if offset =? -1 then put_state dflt else ret tt.

Module AntminerOld.

Definition _get_mac (self : miner) : M handle value :=
  try_except
    (data <- call self WebGetSystemInfo;;
     if Py.truthy data then lift (Py.getitem_key data "macaddr")
     else ret VNone)
    is_KeyError (ret VNone).

(** [api_stats["STATS"][1].get(f"fan{n}")] *)
Definition fan_probe (api_stats : value) (n : Z) : res value :=
  s <<- Py.getitem_key api_stats "STATS";;
  s1 <<- Py.getitem_idx s 1;;
  Py.get s1 ("fan" ++ Py.str_of_int n)%string.

(** [fan_offset] after the scan of [range(1, 8, 4)] by [range(4)]: a hit at
    candidate [fan_num] sets it to [fan_num + 2]. *)
Definition fan_offset (api_stats : value) : res Z :=
  exec (scan (range_step 1 8 4) 4 (fan_probe api_stats) (fun fan_num => fan_num + 2);;;
        or_default 3)
       (-1).

Definition read_fans (self : miner) (api_stats : value) : M (list Fan) unit :=
  offset <- lift (fan_offset api_stats);;
  for_each (range (expected_fans self)) (fun fan =>
    v <- lift (s <<- Py.getitem_key api_stats "STATS";;
               s1 <<- Py.getitem_idx s 1;;
               Py.get_default s1 ("fan" ++ Py.str_of_int (offset + fan))%string (VInt 0));;
    fun fans_data => (Ok tt, list_update (Z.to_nat fan) (fun _ => mkFan v) fans_data)).

Definition _get_fans (self : miner) (api_stats : value) : M handle (list Fan) :=
  stats <- fetch_if_missing self api_stats RpcStats;;
  let fans_data := repeat Fan_new (expected_fans self) in
  if Py.truthy stats then
    with_local fans_data
      (try_except (read_fans self stats) is_LookupError (ret tt))
  else ret fans_data.

(** [boards[1].get(f"chain_acn{n}")] *)
Definition board_probe (boards : value) (n : Z) : res value :=
  b1 <<- Py.getitem_idx boards 1;;
  Py.get b1 ("chain_acn" ++ Py.str_of_int n)%string.

(** [board_offset] after the scan of [range(1, 16, 5)] by [range(5)]: a hit
    at candidate [board_num] sets it to [board_num]. *)
Definition board_offset (boards : value) : res Z :=
  exec (scan (range_step 1 16 5) 5 (board_probe boards) (fun board_num => board_num);;;
        or_default 1)
       (-1).

(** [boards[1].get(f"<name>{i}")] *)
Definition field (boards : value) (name : string) (i : Z) : res value :=
  b1 <<- Py.getitem_idx boards 1;;
  Py.get b1 (name ++ Py.str_of_int i)%string.

(** One pass of [for i in range(board_offset, board_offset + expected)]:
    the board built for raw key suffix [i], before it is appended. *)
Definition build_board (self : miner) (boards : value) (offset i : Z)
  : res HashBoard :=
  let hashboard :=
    HashBoard_new (chips_default self) (i - offset) (expected_chips_of self) in
  chip_temp <<- field boards "temp" i;;
  hb1 <<- (if Py.truthy chip_temp
           then r <<- Py.round0 chip_temp;; Ok (set_chip_temp r hashboard)
           else Ok hashboard);;
  temp <<- field boards "temp2_" i;;
  hb2 <<- (if Py.truthy temp
           then r <<- Py.round0 temp;; Ok (set_temp r hb1)
           else Ok hb1);;
  hashrate <<- field boards "chain_rate" i;;
  hb3 <<- (if Py.truthy hashrate
           then f <<- py_float self hashrate;;
                q <<- Py.truediv f (VInt 1000);;
                r <<- Py.round2 q;;
                Ok (set_hashrate r hb2)
           else Ok hb2);;
  chips <<- field boards "chain_acn" i;;
  let hb4 := if Py.truthy chips
             then set_missing false (set_chips chips hb3)
             else hb3 in
  absent <<- (if negb (Py.truthy chips) then Ok true
              else g <<- Py.gt_zero chips;; Ok (negb g));;
  Ok (if absent then set_missing true hb4 else hb4).

Definition board_step (self : miner) (boards : value) (offset i : Z)
  : M (list HashBoard) unit :=
  hashboard <- lift (build_board self boards offset i);;
  fun hashboards => (Ok tt, hashboards ++ [hashboard]).

(** The [try] block of [_get_hashboards]. *)
Definition read_boards (self : miner) (api_stats : value) : M (list HashBoard) unit :=
  boards <- lift (Py.getitem_key api_stats "STATS");;
  n <- lift (Py.len boards);;
  if 1 <? n then
    offset <- lift (board_offset boards);;
    for_each (range_from offset (expected_hashboards self))
      (board_step self boards offset)
  else ret tt.

Definition _get_hashboards (self : miner) (api_stats : value)
  : M handle (list HashBoard) :=
  let hashboards := [] in
  stats <- fetch_if_missing self api_stats RpcStats;;
  if Py.truthy stats then
    with_local hashboards
      (try_except (read_boards self stats) is_old_board_error (ret tt))
  else ret hashboards.

(** [None] below stands for falling through to the summary query. *)
Definition _is_mining (self : miner) (web_get_conf : value) : M handle value :=
  conf <- fetch_if_missing self web_get_conf WebGetMinerConf;;
  returned <-
    (if Py.truthy conf then
       try_except
         (mode <- lift (Py.getitem_key conf "bitmain-work-mode");;
          n <- lift (py_int self mode);;
          ret (Some (VBool (negb (Py.num_eq n (VInt 1))))))
         is_LookupError (ret None)
     else ret None);;
  match returned with
  | Some v => ret v
  | None =>
      api_summary <- try_except (call self RpcSummary) is_APIError (ret VNone);;
      match api_summary with
      | VNone => ret VNone
      | VDict [] => ret (VBool false)
      | _ => ret (VBool true)
      end
  end.

Definition fault_light_on (self : miner) : M handle value :=
  call self (WebBlink true);;;
  try_except
    (data <- call self WebGetBlinkStatus;;
     if Py.truthy data then
       blinking <- lift (Py.getitem_key data "isBlinking");;
       if Py.truthy blinking then set_light (VBool true) else ret tt
     else ret tt)
    is_KeyError (ret tt);;;
  h <- get_state;;
  ret (light h).

Definition fault_light_off (self : miner) : M handle value :=
  call self (WebBlink false);;;
  try_except
    (data <- call self WebGetBlinkStatus;;
     if Py.truthy data then
       blinking <- lift (Py.getitem_key data "isBlinking");;
       if negb (Py.truthy blinking) then set_light (VBool false) else ret tt
     else ret tt)
    is_KeyError (ret tt);;;
  h <- get_state;;
  ret (light h).

Definition _get_fault_light (self : miner) (web_get_blink_status : value)
  : M handle value :=
  h <- get_state;;
  if Py.truthy (light h) then ret (light h)
  else
    status <- fetch_if_missing self web_get_blink_status WebGetBlinkStatus;;
    (if Py.truthy status then
       try_except (b <- lift (Py.getitem_key status "isBlinking");; set_light b)
         is_KeyError (ret tt)
     else ret tt);;;
    h' <- get_state;;
    ret (light h').

Definition _get_hostname (self : miner) (web_get_system_info : value)
  : M handle value :=
  info <- fetch_if_missing self web_get_system_info WebGetSystemInfo;;
  if Py.truthy info then
    try_except (lift (Py.getitem_key info "hostname")) is_KeyError (ret VNone)
  else ret VNone.

Definition _get_uptime (self : miner) (api_stats : value) : M handle value :=
  stats <- fetch_if_missing self api_stats RpcStats;;
  if Py.truthy stats then
    try_except
      (s <- lift (Py.getitem_key stats "STATS");;
       s1 <- lift (Py.getitem_idx s 1);;
       elapsed <- lift (Py.getitem_key s1 "Elapsed");;
       lift (py_int self elapsed))
      is_LookupError (ret VNone)
  else ret VNone.

End AntminerOld.

(** * Specification-level definitions *)

(** ** Hashrate conversion *)

(** The conversion table of the spec, by its words: unit ["GH"] gives
    [round(value / 1000, 2)], unit ["MH"] gives [round(value / 1000000, 2)],
    any other unit gives [round(value, 2)]. *)
Definition hashrate_table (v : value) (unit_ : string) : res value :=
  if String.eqb unit_ "GH" then q <<- Py.truediv v (VInt 1000);; Py.round2 q
  else if String.eqb unit_ "MH" then q <<- Py.truediv v (VInt 1000000);; Py.round2 q
  else Py.round2 v.

(** ** The offset resolver *)

(** A reading counts as non-zero when the scan's test accepts it. *)
Definition nonzero (v : value) : bool :=
  Py.truthy v && negb (Py.eq_zero v).

(** The resolver of the spec, by its words: the first candidate, in order,
    one of whose [width] probed suffixes holds a non-zero value. *)
Definition first_hit (cands : list Z) (width : nat) (nonzero_at : Z -> bool)
  : option Z :=
  find (fun c => existsb (fun k => nonzero_at (c + k)) (range width)) cands.

(** The offset the spec's resolver accepts: the first hit itself, or the
    default. *)
Definition resolved_offset (cands : list Z) (width : nat)
  (nonzero_at : Z -> bool) (dflt : Z) : Z :=
  match first_hit cands width nonzero_at with
  | Some c => c
  | None => dflt
  end.

(** The reading stored in a flat mapping under [<name><n>], [None] when the
    key is absent (what [dict.get] returns). *)
Definition reading (d : list (string * value)) (name : string) (n : Z) : value :=
  match dict_lookup d (name ++ Py.str_of_int n)%string with
  | Some v => v
  | None => VNone
  end.

(** A fan reading as the extraction loop takes it: 0 when the key is
    absent ([dict.get] with default 0). *)
Definition fan_reading (d : list (string * value)) (n : Z) : value :=
  match dict_lookup d ("fan" ++ Py.str_of_int n)%string with
  | Some v => v
  | None => VInt 0
  end.

(** ** Chain records of the Modern dialect *)



(** A per-board reading [round] and [> 0] accept: a number. *)
Definition numeric (v : value) : bool :=
  match Py.to_Q v with Some _ => true | None => false end.

(** The position [hashboards[board["index"]]] designates among [len]
    boards. *)
Definition slot_of (board : value) (len : nat) : res nat :=
  idx <<- Py.getitem_key board "index";;
  list_index len idx.

(** The chain records of a Modern stats payload:
    [api_stats["STATS"][0]["chain"]], as the loop visits them. *)
Definition chain_records (api_stats : value) : res (list value) :=
  stats <<- Py.getitem_key api_stats "STATS";;
  s0 <<- Py.getitem_idx stats 0;;
  c <<- Py.getitem_key s0 "chain";;
  Py.iter c.


(** A reading that the averaging of [n] readings takes without leaving the
    float range: a float, or an [int] (a [bool] counts as 0 or 1) whose
    magnitude times [n] stays below the limit, so that no partial sum of
    integers fails to convert. *)
Definition reading_in_range (n : nat) (x : value) : bool :=
  match Py.is_intlike x with
  | Some z => Z.abs z * Z.of_nat n <? Py.float_limit
  | None => match x with VFloat _ => true | _ => false end
  end.

(** A temperature array the averaging accepts: a list, of a length that is
    itself within range, of in-range numbers with at least one non-zero
    reading. *)
Definition temps_ok (v : value) : Prop :=
  exists l, v = VList l
            /\ Z.of_nat (List.length l) < Py.float_limit
            /\ Forall (fun x => reading_in_range (List.length l) x = true) l
            /\ Exists (fun x => Py.eq_zero x = false) l.

(** The accumulator of [sum] over in-range readings, after [k] of at most
    [n] of them: a float, or an integer that still converts. *)
Definition partial_sum_ok (n k : nat) (acc : value) : Prop :=
  match acc with
  | VInt a => Z.abs a * Z.of_nat n <= Z.of_nat k * (Py.float_limit - 1)
  | VFloat _ => True
  | _ => False
  end.




(** ** Boards of the Old dialect *)


(** A board of the Old dialect is confirmed present when its chip count is
    a positive number. *)
Definition confirmed_chips (hb : HashBoard) : Prop :=
  Py.truthy (chips hb) = true /\ Py.gt_zero (chips hb) = Ok true.

(** The property every board of a returned Old sequence has. *)
Definition missing_unless_confirmed (hb : HashBoard) : Prop :=
  missing hb = false -> confirmed_chips hb.

(** ** The fault light *)

(** A blink response that does not confirm the transition to ON: an empty
    response, or a mapping whose ["code"] is absent or not ["B000"]. *)
Definition unconfirmed_on (data : value) : Prop :=
  Py.truthy data = false \/
  exists d, data = VDict d /\
    match dict_lookup d "code" with
    | Some c => Py.eq_str c "B000" = false
    | None => True
    end.

(** [n] successive FAULT_LIGHT reads, one per payload offered. *)
Fixpoint read_fault_light (self : miner) (payloads : list value)
  : M handle (list value) :=
  match payloads with
  | [] => ret []
  | p :: ps =>
      v <- AntminerModern._get_fault_light self p;;
      vs <- read_fault_light self ps;;
      ret (v :: vs)
  end.

(** ** Sample miners and payloads *)

(** A transport on which every call fails. *)
Definition offline : transport := fun _ _ => None.

(** A transport that answers every call with the same payload. *)
Definition answering (payload : value) : transport := fun _ _ => Some payload.

(** A handle as the constructor leaves it: light off, nothing issued. *)
Definition fresh_handle : handle := mkHandle (VBool false) [].

(** The plain decimal fragment of the runtime's parsers, for concrete
    runs: a non-empty string of ASCII digits. *)
Fixpoint digits_value (acc : Z) (s : string) : option Z :=
  match s with
  | EmptyString => Some acc
  | String c s' =>
      let n := Z.of_nat (nat_of_ascii c) in
      if (48 <=? n) && (n <=? 57) then digits_value (10 * acc + (n - 48)) s'
      else None
  end.

Definition plain_int_of_str (s : string) : option Z :=
  match s with
  | EmptyString => None
  | _ => digits_value 0 s
  end.

Definition plain_float_of_str (s : string) : option Q :=
  option_map inject_Z (plain_int_of_str s).

(** A three-board, two-fan miner over a given transport. *)
Definition sample_miner (t : transport) : miner :=
  mkMiner t 3 (VInt 80) 2 VNone plain_float_of_str plain_int_of_str.

(** A stats payload [{"STATS": [{"chain": chain}]}]. *)
Definition chain_payload (chain : list value) : value :=
  VDict [("STATS", VList [VDict [("chain", VList chain)]])].

(** A stats payload [{"STATS": [{}, flat]}] of the Old dialect. *)
Definition flat_payload (flat : list (string * value)) : value :=
  VDict [("STATS", VList [VDict []; VDict flat])].

(** A stats payload [{"STATS": [{}, {"total_rateideal": v, "rate_unit": u}]}]. *)
Definition ideal_payload (v : value) (u : string) : value :=
  flat_payload [("total_rateideal", v); ("rate_unit", VStr u)].

(** The chain record of the end-to-end scenario. *)
Definition scenario_record : value :=
  VDict [("index", VInt 0); ("rate_real", VInt 15000); ("asic_num", VInt 80);
         ("temp_pcb", VList [VInt 0; VInt 55; VInt 57; VInt 0]);
         ("temp_chip", VList [VInt 0; VInt 70; VInt 71; VInt 0]);
         ("sn", VStr "ABC123")].

(** Chain records with an all-zero temperature array. *)
Definition zero_pcb_record : value :=
  VDict [("index", VInt 0); ("rate_real", VInt 15000); ("asic_num", VInt 80);
         ("temp_pcb", VList [VInt 0; VInt 0; VInt 0; VInt 0]);
         ("temp_chip", VList [VInt 0; VInt 70; VInt 71; VInt 0]);
         ("sn", VStr "ABC123")].

Definition zero_chip_record : value :=
  VDict [("index", VInt 0); ("rate_real", VInt 15000); ("asic_num", VInt 80);
         ("temp_pcb", VList [VInt 0; VInt 55; VInt 57; VInt 0]);
         ("temp_chip", VList [VInt 0; VInt 0; VInt 0; VInt 0]);
         ("sn", VStr "ABC123")].

(** A chain record that has its chip count but no serial number. *)
Definition no_sn_record : value :=
  VDict [("index", VInt 0); ("rate_real", VInt 15000); ("asic_num", VInt 80);
         ("temp_pcb", VList [VInt 0; VInt 55; VInt 57; VInt 0]);
         ("temp_chip", VList [VInt 0; VInt 70; VInt 71; VInt 0])].

(** A flat mapping whose only non-zero chip counts are those of the group
    starting at suffix 11. *)
Definition group11 : list (string * value) :=
  [("chain_acn1", VInt 0); ("chain_acn2", VInt 0); ("chain_acn3", VInt 0);
   ("chain_acn11", VInt 63); ("chain_acn12", VInt 63); ("chain_acn13", VInt 63);
   ("temp11", VInt 60); ("temp12", VInt 61); ("temp13", VInt 62);
   ("temp2_11", VInt 70); ("temp2_12", VInt 71); ("temp2_13", VInt 72);
   ("chain_rate11", VInt 4500); ("chain_rate12", VInt 4510);
   ("chain_rate13", VInt 4520)].

(** The boards the extraction builds from [group11]. *)
Definition group11_boards : list HashBoard :=
  [mkHashBoard 0 (VFloat (9 # 2)) (VInt 70) (VInt 60) (VInt 63) (VInt 80) VNone false;
   mkHashBoard 1 (VFloat (451 # 100)) (VInt 71) (VInt 61) (VInt 63) (VInt 80) VNone false;
   mkHashBoard 2 (VFloat (113 # 25)) (VInt 72) (VInt 62) (VInt 63) (VInt 80) VNone false].

(** A flat mapping in which every probed key is zero or absent. *)
Definition all_zero : list (string * value) :=
  [("chain_acn1", VInt 0); ("chain_acn2", VInt 0); ("chain_acn3", VInt 0);
   ("fan1", VInt 0); ("fan2", VInt 0)].

(** A flat mapping with fans reported at [fan1] and [fan2] only. *)
Definition low_fans : list (string * value) :=
  [("fan1", VInt 6000); ("fan2", VInt 5880)].

(** ** Transport calls issued *)

(** A computation on the handle that issues no transport call. *)
Definition silent {A : Type} (m : M handle A) : Prop :=
  forall h, calls (snd (m h)) = calls h.

(** A computation on the handle that issues the call [c] and no other. *)
Definition queries_once {A : Type} (c : command) (m : M handle A) : Prop :=
  forall h, calls (snd (m h)) = calls h ++ [c].

(** ** Exceptions that escape *)

(** A computation none of whose runs raises an exception of the classes
    [bad]. *)
Definition never_raises {St A : Type} (bad : exn -> bool) (m : M St A) : Prop :=
  forall s e, fst (m s) = Raise e -> bad e = false.

(** ** Entries of [STATS[1]] *)

(** [stats["STATS"][1][key]] *)
Definition stats_entry (stats : value) (key : string) : res value :=
  s <<- Py.getitem_key stats "STATS";;
  s1 <<- Py.getitem_idx s 1;;
  Py.getitem_key s1 key.

(** The three ways a stats mapping can lack the entry [key]: no ["STATS"]
    key, a ["STATS"] list of fewer than two entries, or a second entry that
    is a mapping without [key]. *)
Definition lacks_entry (stats : value) (key : string) : Prop :=
  (exists d, stats = VDict d /\ dict_lookup d "STATS" = None)
  \/ (exists l, Py.getitem_key stats "STATS" = Ok (VList l)
                /\ (List.length l <= 1)%nat)
  \/ (exists s d1, Py.getitem_key stats "STATS" = Ok s
                   /\ Py.getitem_idx s 1 = Ok (VDict d1)
                   /\ dict_lookup d1 key = None).

(** ** Sentinel codes *)

(** A blink response that carries the sentinel [code]. *)
Definition answers_code (data : value) (code : string) : bool :=
  match data with
  | VDict d =>
      match dict_lookup d "code" with
      | Some c => Py.eq_str c code
      | None => false
      end
  | _ => false
  end.

(** A response of the web channel: a mapping, or nothing. *)
Definition mapping_or_empty (data : value) : Prop :=
  Py.truthy data = false \/ exists d, data = VDict d.

(** What a blink-status response of the Old dialect reports, if
    anything. *)
Definition blink_state (data : value) : option value :=
  match data with
  | VDict d => dict_lookup d "isBlinking"
  | _ => None
  end.

(** ** Further helpers *)

(** A computation on the boards that leaves every board's [g]-view as it
    was. *)
Definition keeps {A B : Type} (g : HashBoard -> B) (m : M (list HashBoard) A)
  : Prop :=
  forall s, map g (snd (m s)) = map g s.

(** [sum(data) / len(data)] over [list(filter(lambda x: not x == 0, v))]:
    the average the Modern board loop stores. *)
Definition average (v : value) : res value :=
  data <<- AntminerModern.nonzero_readings v;;
  AntminerModern.mean data.

(** The message an item of the summary's status list contributes to the
    errors, if any: the item has a status other than ["s"] and a message. *)
Definition reported_error (item : value) : option value :=
  match item with
  | VDict d =>
      match dict_lookup d "status" with
      | Some st => if Py.eq_str st "s" then None else dict_lookup d "msg"
      | None => None
      end
  | _ => None
  end.

Fixpoint reported_errors (items : list value) : list value :=
  match items with
  | [] => []
  | item :: items' =>
      match reported_error item with
      | Some msg => msg :: reported_errors items'
      | None => reported_errors items'
      end
  end.

Definition is_mapping (v : value) : bool :=
  match v with VDict _ => true | _ => false end.

(** The network settings [set_hostname] reads back before it sends. *)
Definition network_keys : list string :=
  ["conf_dnsservers"; "conf_gateway"; "conf_ipaddress"; "conf_netmask";
   "conf_nettype"].

(** A status list with one passed check, one error, and two items that
    lack a key. *)
Definition sample_status : list value :=
  [VDict [("type", VStr "rate"); ("status", VStr "s")];
   VDict [("status", VStr "e"); ("msg", VStr "fan lost")];
   VDict [("type", VStr "temp")];
   VDict [("status", VStr "w")]].

Definition sample_summary : value :=
  VDict [("SUMMARY", VList [VDict [("status", VList sample_status)]])].

(** A result that is not a raised [APIError]: only a transport call
    raises that class. *)
Definition clean {A : Type} (r : res A) : Prop :=
  forall e, r = Raise e -> is_APIError e = false.

(** * Properties *)

(** ** Basic facts about the monad and the payload operations *)

Lemma rbind_Ok {A B} (r : res A) (f : A -> res B) (b : B) :
  rbind r f = Ok b -> exists a, r = Ok a /\ f a = Ok b.
Proof.
  destruct r as [a|e]; simpl; intros H; [eauto | discriminate].
Qed.

Lemma getitem_key_truthy (v : value) (k : string) (x : value) :
  Py.getitem_key v k = Ok x -> Py.truthy v = true.
Proof.
  destruct v; simpl; try discriminate.
  destruct d; simpl; [discriminate | reflexivity].
Qed.

Lemma truediv_not_lookup (a b : value) (e : exn) :
  Py.truediv a b = Raise e -> is_LookupError e = false.
Proof.
  unfold Py.truediv.
  repeat match goal with
    | |- context [match ?x with _ => _ end] => destruct x
    end;
    first [discriminate | intros [= <-]; reflexivity].
Qed.

Lemma round2_not_lookup (v : value) (e : exn) :
  Py.round2 v = Raise e -> is_LookupError e = false.
Proof.
  destruct v; simpl; intros [= <-]; reflexivity.
Qed.

Lemma for_each_inv {St A} (P : St -> Prop) (body : A -> M St unit) (l : list A) :
  (forall x s, In x l -> P s -> P (snd (body x s))) ->
  forall s, P s -> P (snd (for_each l body s)).
Proof.
  induction l as [|x l IH]; intros Hbody s Hs; simpl.
  - exact Hs.
  - unfold bind.
    pose proof (Hbody x s (or_introl eq_refl) Hs) as Hx.
    destruct (body x s) as [[[]|e] s']; simpl in *.
    + apply IH; [intros; apply Hbody; [right|]; assumption | exact Hx].
    + exact Hx.
Qed.

Lemma list_update_length {A} (n : nat) (f : A -> A) (l : list A) :
  List.length (list_update n f l) = List.length l.
Proof.
  revert n; induction l as [|x l IH]; intros [|n]; simpl; auto.
Qed.


(** ** Scenario, conversion table, failure cases and the fault light *)

(** C3: with three expected hashboards of 80 chips, a stats payload whose
    [STATS[0]["chain"]] holds the single scenario record yields three
    boards: slot 0 carries hashrate 15.0, 80 chips, board temperature 56.0,
    chip temperature 70.5, serial number "ABC123" and is not missing; slots
    1 and 2 are the untouched defaults, still missing. *)
Theorem C3_modern_scenario (t : transport) (nf : nat) (cd : value)
  (fp : string -> option Q) (ip : string -> option Z)
  (h : handle) (payload stats s0 : value) :
  t (calls h) RpcStatsNew = Some payload ->
  Py.getitem_key payload "STATS" = Ok stats ->
  Py.getitem_idx stats 0 = Ok s0 ->
  Py.getitem_key s0 "chain" = Ok (VList [scenario_record]) ->
  fst (AntminerModern._get_hashboards (mkMiner t 3 (VInt 80) nf cd fp ip) h) =
  Ok [mkHashBoard 0 (VFloat 15) (VFloat 56) (VFloat (141 # 2)) (VInt 80)
        (VInt 80) (VStr "ABC123") false;
      HashBoard_new cd 1 (VInt 80);
      HashBoard_new cd 2 (VInt 80)].
Proof.
  intros Ht Hstats Hs0 Hchain.
  pose proof (getitem_key_truthy _ _ _ Hstats) as Htruthy.
  unfold AntminerModern._get_hashboards, try_except, bind, call; simpl.
  rewrite Ht; simpl.
  rewrite Htruthy.
  unfold with_local, try_except, AntminerModern.read_chains, bind, lift; simpl.
  rewrite Hstats; simpl. rewrite Hs0; simpl. rewrite Hchain; simpl.
  reflexivity.
Qed.

Lemma C3_modern_scenario_witness :
  fst (AntminerModern._get_hashboards
         (sample_miner (answering (chain_payload [scenario_record])))
         fresh_handle) =
  Ok [mkHashBoard 0 (VFloat 15) (VFloat 56) (VFloat (141 # 2)) (VInt 80)
        (VInt 80) (VStr "ABC123") false;
      HashBoard_new VNone 1 (VInt 80);
      HashBoard_new VNone 2 (VInt 80)].
Proof.
  apply (C3_modern_scenario (answering (chain_payload [scenario_record])) 2 VNone
           plain_float_of_str plain_int_of_str fresh_handle
           (chain_payload [scenario_record])
           (VList [VDict [("chain", VList [scenario_record])]])
           (VDict [("chain", VList [scenario_record])]));
    reflexivity.
Defined.

(** C6: the expected-hashrate extractor converts the pair (value, unit) it
    finds in [STATS[1]] by the table: "GH" divides by 1000, "MH" by
    1000000, any other unit passes the value through, each rounded to two
    decimals.  So (15000, "GH") and (15000000, "MH") give 15.0, and
    (15000, "unknown") gives 15000, which equals 15000.0. *)
Theorem C6_expected_hashrate_table (self : miner) (h : handle)
  (stats s : value) (d : list (string * value)) (v : value) (u : string) :
  Py.getitem_key stats "STATS" = Ok s ->
  Py.getitem_idx s 1 = Ok (VDict d) ->
  dict_lookup d "total_rateideal" = Some v ->
  dict_lookup d "rate_unit" = Some (VStr u) ->
  AntminerModern._get_expected_hashrate self stats h = (hashrate_table v u, h)
  /\ fst (AntminerModern._get_expected_hashrate self
            (ideal_payload (VInt 15000) "GH") h) = Ok (VFloat 15)
  /\ fst (AntminerModern._get_expected_hashrate self
            (ideal_payload (VInt 15000000) "MH") h) = Ok (VFloat 15)
  /\ fst (AntminerModern._get_expected_hashrate self
            (ideal_payload (VFloat 15000) "unknown") h) = Ok (VFloat 15000)
  /\ exists r,
       fst (AntminerModern._get_expected_hashrate self
              (ideal_payload (VInt 15000) "unknown") h) = Ok r
       /\ Py.num_eq r (VFloat 15000) = true.
Proof.
  intros Hstats Hs1 Hv Hu.
  split; [| repeat split; try reflexivity; eexists; split; reflexivity].
  pose proof (getitem_key_truthy _ _ _ Hstats) as Htruthy.
  unfold AntminerModern._get_expected_hashrate, fetch_if_missing.
  rewrite Htruthy; simpl.
  unfold bind at 1; unfold ret at 1.
  rewrite Htruthy.
  unfold try_except, bind, lift.
  rewrite Hstats, Hs1; simpl.
  rewrite Hv, Hu; simpl.
  unfold hashrate_table.
  destruct (String.eqb u "GH").
  - destruct (Py.truediv v (VInt 1000)) as [q|e] eqn:Ediv; simpl.
    + destruct (Py.round2 q) as [r|e] eqn:Er; [reflexivity|].
      rewrite (round2_not_lookup _ _ Er); reflexivity.
    + rewrite (truediv_not_lookup _ _ _ Ediv); reflexivity.
  - destruct (String.eqb u "MH").
    + destruct (Py.truediv v (VInt 1000000)) as [q|e] eqn:Ediv; simpl.
      * destruct (Py.round2 q) as [r|e] eqn:Er; [reflexivity|].
        rewrite (round2_not_lookup _ _ Er); reflexivity.
      * rewrite (truediv_not_lookup _ _ _ Ediv); reflexivity.
    + destruct (Py.round2 v) as [r|e] eqn:Er; [reflexivity|].
      rewrite (round2_not_lookup _ _ Er); reflexivity.
Qed.

Lemma C6_expected_hashrate_table_witness :
  AntminerModern._get_expected_hashrate (sample_miner offline)
    (ideal_payload (VInt 14000) "GH") fresh_handle =
  (hashrate_table (VInt 14000) "GH", fresh_handle).
Proof.
  exact (proj1 (C6_expected_hashrate_table (sample_miner offline) fresh_handle
                  (ideal_payload (VInt 14000) "GH")
                  (VList [VDict []; VDict [("total_rateideal", VInt 14000);
                                           ("rate_unit", VStr "GH")]])
                  [("total_rateideal", VInt 14000); ("rate_unit", VStr "GH")]
                  (VInt 14000) "GH" eq_refl eq_refl eq_refl eq_refl)).
Defined.

(** C8: a chain record whose [temp_pcb] array, or whose [temp_chip] array,
    holds only zero readings makes the Modern hashboard extraction raise
    [ZeroDivisionError]: no hashboard sequence is returned. *)
Theorem C8_all_zero_temperatures_raise :
  fst (AntminerModern._get_hashboards
         (sample_miner (answering (chain_payload [zero_pcb_record])))
         fresh_handle) = Raise ZeroDivisionError
  /\ fst (AntminerModern._get_hashboards
            (sample_miner (answering (chain_payload [zero_chip_record])))
            fresh_handle) = Raise ZeroDivisionError.
Proof.
  split; vm_compute; reflexivity.
Qed.

(** Where failure isolation works: with no payload passed and every
    transport call failing, these extractors return their defaults. *)
Lemma no_payload_defaults (nb nf : nat) (ec cd : value)
  (fp : string -> option Q) (ip : string -> option Z) (h : handle) :
  let self := mkMiner offline nb ec nf cd fp ip in
  fst (AntminerModern._get_hostname self VNone h) = Ok VNone
  /\ fst (AntminerModern._get_hashboards self h)
     = Ok (AntminerModern.fresh_boards self)
  /\ fst (AntminerModern._get_fault_light self VNone h) = Ok (light h)
  /\ fst (AntminerModern._get_expected_hashrate self VNone h) = Ok VNone
  /\ fst (AntminerModern._is_mining self VNone h) = Ok VNone
  /\ fst (AntminerOld._get_fans self VNone h) = Ok (repeat Fan_new nf)
  /\ fst (AntminerOld._get_hashboards self VNone h) = Ok []
  /\ fst (AntminerOld._is_mining self VNone h) = Ok VNone.
Proof.
  repeat split; try reflexivity.
  unfold AntminerModern._get_fault_light, bind, get_state.
  destruct (Py.truthy (light h)); reflexivity.
Qed.

(** C2: extractors that raise instead of returning their default.  With
    every transport call failing, the MAC extractors of both dialects let
    the [APIError] of their last query escape.  With a work mode that is
    not a number, the Old IS_MINING extractor raises [TypeError] or
    [ValueError], where the Modern one, which tests [isdigit] first,
    returns false.  With a rate given as text, the Modern expected-hashrate
    extractor raises [TypeError]. *)
Theorem C2_extractors_raise (nb nf : nat) (ec cd : value)
  (fp : string -> option Q) (ip : string -> option Z) (h : handle) :
  fst (AntminerModern._get_mac (mkMiner offline nb ec nf cd fp ip) VNone h)
    = Raise APIError
  /\ fst (AntminerOld._get_mac (mkMiner offline nb ec nf cd fp ip) h)
    = Raise APIError
  /\ fst (AntminerOld._is_mining (mkMiner offline nb ec nf cd fp ip)
            (VDict [("bitmain-work-mode", VNone)]) h) = Raise TypeError
  /\ fst (AntminerOld._is_mining (sample_miner offline)
            (VDict [("bitmain-work-mode", VStr "")]) h) = Raise ValueError
  /\ fst (AntminerModern._is_mining (sample_miner offline)
            (VDict [("bitmain-work-mode", VStr "")]) h) = Ok (VBool false)
  /\ fst (AntminerModern._get_expected_hashrate (mkMiner offline nb ec nf cd fp ip)
            (ideal_payload (VStr "15000") "GH") h) = Raise TypeError.
Proof.
  repeat split; reflexivity.
Qed.

(** C9: when the blink command is answered with code "B000", the handle's
    light is ON afterwards, and every later sequence of FAULT_LIGHT reads
    returns ON each time and leaves the handle as it is, the log of issued
    calls included: no blink-status query is made.  When the answer does not
    confirm, the light keeps its prior value and the method returns it. *)
Theorem C9_fault_light_cache (self : miner) (h : handle) (data : value) :
  tr self (calls h) (WebBlink true) = Some data ->
  (forall d, data = VDict d ->
     dict_lookup d "code" = Some (VStr "B000") ->
     let h1 := mkHandle (VBool true) (calls h ++ [WebBlink true]) in
     AntminerModern.fault_light_on self h = (Ok (VBool true), h1)
     /\ forall payloads,
          read_fault_light self payloads h1 =
          (Ok (repeat (VBool true) (List.length payloads)), h1))
  /\ (unconfirmed_on data ->
      AntminerModern.fault_light_on self h =
      (Ok (light h), mkHandle (light h) (calls h ++ [WebBlink true]))).
Proof.
  intros Ht; split.
  - intros d -> Hcode h1; split.
    + unfold AntminerModern.fault_light_on, bind, call; rewrite Ht.
      assert (Htruthy : Py.truthy (VDict d) = true)
        by (destruct d; [discriminate | reflexivity]).
      rewrite Htruthy.
      unfold lift; simpl. rewrite Hcode; simpl. reflexivity.
    + induction payloads as [|p ps IH]; [reflexivity|].
      simpl. unfold bind at 1.
      change (AntminerModern._get_fault_light self p h1)
        with (Ok (VBool true), h1).
      unfold bind at 1. rewrite IH. reflexivity.
  - intros [Hfalsy | [d [-> Hcode]]].
    + unfold AntminerModern.fault_light_on, bind, call; rewrite Ht, Hfalsy.
      destruct h; reflexivity.
    + unfold AntminerModern.fault_light_on, bind, call; rewrite Ht.
      destruct (Py.truthy (VDict d)); [| destruct h; reflexivity].
      unfold lift; simpl.
      destruct (dict_lookup d "code") as [c|]; simpl.
      * rewrite Hcode. destruct h; reflexivity.
      * destruct h; reflexivity.
Qed.

Lemma C9_fault_light_cache_witness :
  AntminerModern.fault_light_on
    (sample_miner (answering (VDict [("code", VStr "B000")]))) fresh_handle =
  (Ok (VBool true), mkHandle (VBool true) [WebBlink true])
  /\ AntminerModern.fault_light_on
       (sample_miner (answering (VDict [("code", VStr "B100")]))) fresh_handle =
     (Ok (VBool false), mkHandle (VBool false) [WebBlink true]).
Proof.
  split.
  - exact (proj1 (proj1 (C9_fault_light_cache
                           (sample_miner (answering (VDict [("code", VStr "B000")])))
                           fresh_handle (VDict [("code", VStr "B000")]) eq_refl)
                    [("code", VStr "B000")] eq_refl eq_refl)).
  - apply (proj2 (C9_fault_light_cache
                    (sample_miner (answering (VDict [("code", VStr "B100")])))
                    fresh_handle (VDict [("code", VStr "B100")]) eq_refl)).
    right. exists [("code", VStr "B100")]. split; reflexivity.
Defined.

(** ** The offset scan of the Old dialect *)

Section Scan.

Variables (probe : Z -> res value) (val : Z -> value) (accept : Z -> Z).
Hypothesis probe_total : forall n, probe n = Ok (val n).

Lemma scan_candidate (c : Z) (ks : list Z) (s : Z) :
  for_each ks (fun k =>
    v <- lift (probe (c + k));;
    offset <- get_state;;
    if Py.truthy v && negb (Py.eq_zero v) && (offset =? -1)
    then put_state (accept c)
    else ret tt) s
  = (Ok tt,
     if (s =? -1) && existsb (fun k => nonzero (val (c + k))) ks
     then accept c else s).
Proof.
  revert s; induction ks as [|k ks IH]; intros s; simpl.
  - rewrite andb_false_r; reflexivity.
  - unfold bind at 1. unfold bind at 1. unfold lift at 1.
    rewrite probe_total.
    unfold bind at 1, get_state at 1.
    fold (nonzero (val (c + k))).
    destruct (nonzero (val (c + k))) eqn:Hnz; simpl.
    + destruct (s =? -1) eqn:Hs; simpl.
      * unfold put_state. rewrite IH.
        destruct (accept c =? -1); simpl; [destruct (existsb _ ks)|]; reflexivity.
      * unfold ret at 1. rewrite IH, Hs. reflexivity.
    + unfold ret at 1. rewrite IH. reflexivity.
Qed.

Lemma scan_state (cands : list Z) (width : nat) (s : Z) :
  (forall c, In c cands -> accept c <> -1) ->
  scan cands width probe accept s
  = (Ok tt,
     if s =? -1
     then match first_hit cands width (fun n => nonzero (val n)) with
          | Some c => accept c
          | None => -1
          end
     else s).
Proof.
  unfold scan, first_hit.
  revert s; induction cands as [|c cands IH]; intros s Hacc; simpl.
  - destruct (s =? -1) eqn:Hs; [apply Z.eqb_eq in Hs; subst|]; reflexivity.
  - unfold bind at 1. rewrite scan_candidate.
    rewrite IH by (intros; apply Hacc; right; assumption).
    destruct (s =? -1) eqn:Hs; simpl; [|rewrite Hs; reflexivity].
    destruct (existsb _ (range width)); [|rewrite Hs; reflexivity].
    pose proof (Hacc c (or_introl eq_refl)) as Hc.
    apply Z.eqb_neq in Hc. rewrite Hc. reflexivity.
Qed.

Lemma scan_resolves (cands : list Z) (width : nat) (dflt : Z) :
  (forall c, In c cands -> accept c <> -1) ->
  exec (scan cands width probe accept;;; or_default dflt) (-1)
  = Ok (match first_hit cands width (fun n => nonzero (val n)) with
        | Some c => accept c
        | None => dflt
        end).
Proof.
  intros Hacc. unfold exec, bind at 1.
  rewrite (scan_state cands width (-1) Hacc); simpl.
  destruct (first_hit cands width _) as [c|] eqn:Hhit; [|reflexivity].
  unfold first_hit in Hhit. apply find_some in Hhit as [Hin _].
  pose proof (Hacc c Hin) as Hc. apply Z.eqb_neq in Hc.
  unfold or_default, bind, get_state. rewrite Hc. reflexivity.
Qed.

End Scan.

Lemma board_probe_reading (boards : value) (d : list (string * value)) (n : Z) :
  Py.getitem_idx boards 1 = Ok (VDict d) ->
  AntminerOld.board_probe boards n = Ok (reading d "chain_acn" n).
Proof.
  intros H. unfold AntminerOld.board_probe, reading; rewrite H; simpl.
  destruct (dict_lookup d _); reflexivity.
Qed.

Lemma field_reading (boards : value) (d : list (string * value))
  (name : string) (n : Z) :
  Py.getitem_idx boards 1 = Ok (VDict d) ->
  AntminerOld.field boards name n = Ok (reading d name n).
Proof.
  intros H. unfold AntminerOld.field, reading; rewrite H; simpl.
  destruct (dict_lookup d _); reflexivity.
Qed.

Lemma fan_probe_reading (api_stats s : value) (d : list (string * value)) (n : Z) :
  Py.getitem_key api_stats "STATS" = Ok s ->
  Py.getitem_idx s 1 = Ok (VDict d) ->
  AntminerOld.fan_probe api_stats n = Ok (reading d "fan" n).
Proof.
  intros H1 H2. unfold AntminerOld.fan_probe, reading; rewrite H1; simpl.
  rewrite H2; simpl. destruct (dict_lookup d _); reflexivity.
Qed.

Lemma board_offset_resolved (boards : value) (d : list (string * value)) :
  Py.getitem_idx boards 1 = Ok (VDict d) ->
  AntminerOld.board_offset boards =
  Ok (resolved_offset [1; 6; 11] 5 (fun n => nonzero (reading d "chain_acn" n)) 1).
Proof.
  intros H. unfold AntminerOld.board_offset, resolved_offset.
  rewrite (scan_resolves (AntminerOld.board_probe boards)
             (fun n => reading d "chain_acn" n) (fun c => c)).
  - reflexivity.
  - intros n; apply board_probe_reading; exact H.
  - simpl; intros c [<-|[<-|[<-|[]]]]; discriminate.
Qed.

Lemma fan_offset_resolved (api_stats s : value) (d : list (string * value)) :
  Py.getitem_key api_stats "STATS" = Ok s ->
  Py.getitem_idx s 1 = Ok (VDict d) ->
  AntminerOld.fan_offset api_stats =
  Ok (match first_hit [1; 5] 4 (fun n => nonzero (reading d "fan" n)) with
      | Some c => c + 2
      | None => 3
      end).
Proof.
  intros H1 H2. unfold AntminerOld.fan_offset.
  rewrite (scan_resolves (AntminerOld.fan_probe api_stats)
             (fun n => reading d "fan" n) (fun c => c + 2)).
  - reflexivity.
  - intros n; eapply fan_probe_reading; eassumption.
  - simpl; intros c [<-|[<-|[]]]; discriminate.
Qed.

(** ** Loops that fill or extend a local list *)

Lemma for_each_ext {St A} (body body' : A -> M St unit) (l : list A) (s : St) :
  (forall x s', In x l -> body x s' = body' x s') ->
  for_each l body s = for_each l body' s.
Proof.
  revert s; induction l as [|x l IH]; intros s H; simpl; [reflexivity|].
  unfold bind. rewrite (H x s (or_introl eq_refl)).
  destruct (body' x s) as [[[]|e] s']; [|reflexivity].
  apply IH. intros; apply H; right; assumption.
Qed.

Lemma list_update_app {A} (pre post : list A) (x : A) (f : A -> A) :
  list_update (List.length pre) f (pre ++ x :: post) = pre ++ f x :: post.
Proof.
  induction pre as [|y pre IH]; simpl; [reflexivity | rewrite IH; reflexivity].
Qed.

Lemma fill_from {A} (g : Z -> A) (m : nat) :
  forall (a : nat) (pre post : list A),
    List.length pre = a -> List.length post = m ->
    for_each (map Z.of_nat (seq a m))
      (fun k l => (Ok tt, list_update (Z.to_nat k) (fun _ => g k) l))
      (pre ++ post)
    = (Ok tt, pre ++ map g (map Z.of_nat (seq a m))).
Proof.
  induction m as [|m IH]; intros a pre post Hpre Hpost.
  - destruct post; [|discriminate]. reflexivity.
  - destruct post as [|x post]; [discriminate|].
    simpl. unfold bind at 1. rewrite Nat2Z.id, <- Hpre, list_update_app.
    replace (pre ++ g (Z.of_nat (List.length pre)) :: post)
      with ((pre ++ [g (Z.of_nat (List.length pre))]) ++ post)
      by (rewrite <- app_assoc; reflexivity).
    rewrite IH.
    + rewrite <- app_assoc; reflexivity.
    + rewrite length_app; simpl; lia.
    + simpl in Hpost; lia.
Qed.

Lemma fill_list {A} (g : Z -> A) (n : nat) (l : list A) :
  List.length l = n ->
  for_each (range n)
    (fun k l' => (Ok tt, list_update (Z.to_nat k) (fun _ => g k) l')) l
  = (Ok tt, map g (range n)).
Proof.
  intros H. exact (fill_from g n 0%nat [] l eq_refl H).
Qed.

Lemma getitem_idx_1_len (s : value) (d : list (string * value)) :
  Py.getitem_idx s 1 = Ok (VDict d) ->
  exists n, Py.len s = Ok n /\ (1 <? n) = true.
Proof.
  destruct s; simpl; try discriminate.
  - destruct (Py.norm_index (String.length s) 1); [|discriminate].
    destruct (String.get n s); discriminate.
  - unfold Py.norm_index; simpl.
    destruct (1 <? Z.of_nat (List.length l)) eqn:Hlen; [|discriminate].
    intros _. eexists; split; [reflexivity | exact Hlen].
Qed.

Lemma get_fans_result (self : miner) (h : handle) (api_stats s : value)
  (d : list (string * value)) (off : Z) :
  Py.getitem_key api_stats "STATS" = Ok s ->
  Py.getitem_idx s 1 = Ok (VDict d) ->
  AntminerOld.fan_offset api_stats = Ok off ->
  AntminerOld._get_fans self api_stats h =
  (Ok (map (fun k => mkFan (fan_reading d (off + k))) (range (expected_fans self))), h).
Proof.
  intros H1 H2 Hoff.
  pose proof (getitem_key_truthy _ _ _ H1) as Htruthy.
  unfold AntminerOld._get_fans, fetch_if_missing. rewrite Htruthy; simpl.
  unfold bind at 1, ret at 1. rewrite Htruthy.
  unfold with_local, try_except, AntminerOld.read_fans.
  unfold bind at 1, lift at 1. rewrite Hoff.
  rewrite (for_each_ext _
             (fun k l => (Ok tt, list_update (Z.to_nat k)
                                   (fun _ => mkFan (fan_reading d (off + k))) l))).
  - rewrite fill_list by apply repeat_length. reflexivity.
  - intros k l _. unfold bind, lift. rewrite H1; simpl. rewrite H2; simpl.
    unfold fan_reading. destruct (dict_lookup d _); reflexivity.
Qed.

(** ** Boards of the Old dialect *)

Ltac invert_rbind :=
  repeat match goal with
    | H : rbind _ _ = Ok _ |- _ =>
        apply rbind_Ok in H; destruct H as (? & ? & H)
    | H : (if ?b then _ else _) = Ok _ |- _ => destruct b eqn:?
    | H : Ok _ = Ok _ |- _ => injection H as H
    end.

(** What a board that was built carries: its slot is the raw suffix
    relative to the offset, and it is non-missing only with a chip count
    that is a positive number. *)
Lemma build_board_Ok (self : miner) (boards : value) (off i : Z) (hb : HashBoard) :
  AntminerOld.build_board self boards off i = Ok hb ->
  slot hb = i - off /\ (missing hb = false -> confirmed_chips hb).
Proof.
  unfold AntminerOld.build_board, confirmed_chips. intros H.
  invert_rbind; subst;
    repeat match goal with
      | |- context [if ?b then _ else _] => destruct b eqn:?
      end;
    simpl; (split; [reflexivity|]); try discriminate; intros _;
    repeat match goal with
      | H : negb ?b = false |- _ => apply negb_false_iff in H
      | H : negb ?b = true |- _ => apply negb_true_iff in H
      end;
    try congruence;
    split; congruence.
Qed.





Lemma range_S (a : nat) : range (S a) = range a ++ [Z.of_nat a].
Proof.
  unfold range. rewrite seq_S, map_app. reflexivity.
Qed.


(** The board loop, started with [a] boards already appended: the list only
    grows by boards whose slot is their position. *)
Lemma old_loop (self : miner) (boards : value) (off : Z) (m : nat) :
  forall (a : nat) (hbs : list HashBoard) (r : res unit) (hbs' : list HashBoard),
    List.length hbs = a ->
    map slot hbs = range a ->
    Forall missing_unless_confirmed hbs ->
    for_each (map (fun k => off + k) (map Z.of_nat (seq a m)))
      (AntminerOld.board_step self boards off) hbs = (r, hbs') ->
    (List.length hbs' <= a + m)%nat
    /\ map slot hbs' = range (List.length hbs')
    /\ Forall missing_unless_confirmed hbs'
    /\ (r = Ok tt -> List.length hbs' = (a + m)%nat).
Proof.
  induction m as [|m IH]; intros a hbs r hbs' Hlen Hslots Hall; simpl.
  - intros [= <- <-]. rewrite Hlen, Nat.add_0_r. auto.
  - unfold bind at 1, AntminerOld.board_step at 1, bind at 1, lift at 1.
    destruct (AntminerOld.build_board self boards off (off + Z.of_nat a))
      as [hb|e] eqn:Ehb.
    + destruct (build_board_Ok _ _ _ _ _ Ehb) as [Hslot Hconf].
      intros Hloop.
      apply IH in Hloop.
      * destruct Hloop as (H1 & H2 & H3 & H4).
        repeat split; try assumption; [lia | intros Hr; rewrite (H4 Hr); lia].
      * rewrite length_app; simpl; lia.
      * rewrite map_app, Hslots, range_S; simpl.
        f_equal. f_equal. lia.
      * apply Forall_app; split; [assumption | constructor; [exact Hconf | constructor]].
    + intros [= <- <-]. rewrite Hlen.
      repeat split; try assumption; [lia | discriminate].
Qed.


Lemma read_boards_inv (self : miner) (stats : value) (r : res unit)
  (hbs : list HashBoard) :
  AntminerOld.read_boards self stats [] = (r, hbs) ->
  (List.length hbs <= expected_hashboards self)%nat
  /\ map slot hbs = range (List.length hbs)
  /\ Forall missing_unless_confirmed hbs.
Proof.
  unfold AntminerOld.read_boards, bind, lift.
  destruct (Py.getitem_key stats "STATS") as [boards|e];
    [|intros [= <- <-]; simpl; repeat split; [lia | constructor]].
  destruct (Py.len boards) as [n|e];
    [|intros [= <- <-]; simpl; repeat split; [lia | constructor]].
  destruct (1 <? n);
    [|intros [= <- <-]; simpl; repeat split; [lia | constructor]].
  destruct (AntminerOld.board_offset boards) as [off|e];
    [|intros [= <- <-]; simpl; repeat split; [lia | constructor]].
  intros Hloop. unfold range_from, range in Hloop.
  apply old_loop in Hloop; [| reflexivity | reflexivity | constructor].
  destruct Hloop as (H1 & H2 & H3 & _). auto.
Qed.

(** Whatever the Old extraction returns is the list its [try] block left. *)
Lemma old_get_hashboards_inv (self : miner) (api_stats : value) (h h' : handle)
  (hbs : list HashBoard) :
  AntminerOld._get_hashboards self api_stats h = (Ok hbs, h') ->
  (List.length hbs <= expected_hashboards self)%nat
  /\ map slot hbs = range (List.length hbs)
  /\ Forall missing_unless_confirmed hbs.
Proof.
  unfold AntminerOld._get_hashboards, bind.
  destruct (fetch_if_missing self api_stats RpcStats h) as [[stats|e] h1];
    [|discriminate].
  destruct (Py.truthy stats);
    [|intros [= <- <-]; simpl; repeat split; [lia | constructor]].
  unfold with_local, try_except.
  destruct (AntminerOld.read_boards self stats []) as [[[]|e] hbs0] eqn:Eread.
  - intros [= <- <-]. eapply read_boards_inv; eassumption.
  - destruct (is_old_board_error e); simpl; [|discriminate].
    intros [= <- <-]. eapply read_boards_inv; eassumption.
Qed.

(** ** The Old dialect: offsets and slots *)

(** C10: the boards the Old extraction returns carry the slots 0, 1, ...,
    len-1 in order, whichever raw offset was resolved. *)
Theorem C10_old_slots_consecutive (self : miner) (api_stats : value)
  (h h' : handle) (hbs : list HashBoard) :
  AntminerOld._get_hashboards self api_stats h = (Ok hbs, h') ->
  map slot hbs = range (List.length hbs).
Proof.
  intros H. apply old_get_hashboards_inv in H. apply H.
Qed.

Lemma C10_old_slots_consecutive_witness :
  map slot group11_boards = range (List.length group11_boards).
Proof.
  exact (C10_old_slots_consecutive (sample_miner offline) (flat_payload group11)
           fresh_handle fresh_handle group11_boards eq_refl).
Defined.

Lemma get_hashboards_loop (self : miner) (h : handle) (api_stats s : value)
  (d : list (string * value)) (off : Z) :
  Py.getitem_key api_stats "STATS" = Ok s ->
  Py.getitem_idx s 1 = Ok (VDict d) ->
  AntminerOld.board_offset s = Ok off ->
  AntminerOld._get_hashboards self api_stats h =
  with_local []
    (try_except
       (for_each (range_from off (expected_hashboards self))
          (AntminerOld.board_step self s off))
       is_old_board_error (ret tt)) h.
Proof.
  intros H1 H2 Hoff.
  pose proof (getitem_key_truthy _ _ _ H1) as Htruthy.
  destruct (getitem_idx_1_len _ _ H2) as (n & Hlen & Hn).
  unfold AntminerOld._get_hashboards, fetch_if_missing. rewrite Htruthy; simpl.
  unfold bind at 1, ret at 1. rewrite Htruthy.
  unfold with_local, try_except, AntminerOld.read_boards.
  unfold bind at 1, lift at 1. rewrite H1.
  unfold bind at 1, lift at 1. rewrite Hlen, Hn.
  unfold bind at 1, lift at 1. rewrite Hoff.
  reflexivity.
Qed.

(** C5: in a flat mapping whose chip counts at suffixes 1..10 are zero or
    absent and whose count at suffix 11 is non-zero, the board offset is 11
    and, with three expected boards, the extraction returns the boards
    built from suffixes 11, 12 and 13, in that order.  When every probed
    chip count is zero or absent the board offset is the default 1; when
    every probed fan speed is, the fan offset is the default 3. *)
Theorem C5_offsets_on_synthetic_mappings (self : miner) (h : handle)
  (api_stats s : value) (d : list (string * value)) :
  Py.getitem_key api_stats "STATS" = Ok s ->
  Py.getitem_idx s 1 = Ok (VDict d) ->
  ((forall k, 1 <= k <= 10 -> nonzero (reading d "chain_acn" k) = false) ->
   nonzero (reading d "chain_acn" 11) = true ->
   AntminerOld.board_offset s = Ok 11
   /\ (expected_hashboards self = 3%nat ->
       forall b11 b12 b13,
         AntminerOld.build_board self s 11 11 = Ok b11 ->
         AntminerOld.build_board self s 11 12 = Ok b12 ->
         AntminerOld.build_board self s 11 13 = Ok b13 ->
         AntminerOld._get_hashboards self api_stats h = (Ok [b11; b12; b13], h)))
  /\ ((forall k, 1 <= k <= 15 -> nonzero (reading d "chain_acn" k) = false) ->
      AntminerOld.board_offset s = Ok 1)
  /\ ((forall k, 1 <= k <= 8 -> nonzero (reading d "fan" k) = false) ->
      AntminerOld.fan_offset api_stats = Ok 3).
Proof.
  intros H1 H2. split; [|split].
  - intros Hzero Hhit.
    assert (Hoff : AntminerOld.board_offset s = Ok 11).
    { rewrite (board_offset_resolved s d H2).
      unfold resolved_offset, first_hit; simpl.
      rewrite !Hzero by lia. rewrite Hhit. reflexivity. }
    split; [exact Hoff|].
    intros Hn b11 b12 b13 E11 E12 E13.
    rewrite (get_hashboards_loop self h api_stats s d 11 H1 H2 Hoff), Hn.
    unfold with_local, try_except, range_from; simpl.
    unfold bind at 1, AntminerOld.board_step at 1, bind at 1, lift at 1.
    rewrite E11.
    unfold bind at 1, AntminerOld.board_step at 1, bind at 1, lift at 1.
    rewrite E12.
    unfold bind at 1, AntminerOld.board_step at 1, bind at 1, lift at 1.
    rewrite E13.
    reflexivity.
  - intros Hzero.
    rewrite (board_offset_resolved s d H2).
    unfold resolved_offset, first_hit; simpl.
    rewrite !Hzero by lia. reflexivity.
  - intros Hzero.
    rewrite (fan_offset_resolved api_stats s d H1 H2).
    unfold first_hit; simpl.
    rewrite !Hzero by lia. reflexivity.
Qed.

Lemma C5_offsets_on_synthetic_mappings_witness :
  (AntminerOld.board_offset (VList [VDict []; VDict group11]) = Ok 11
   /\ AntminerOld._get_hashboards (sample_miner offline) (flat_payload group11)
        fresh_handle = (Ok group11_boards, fresh_handle))
  /\ AntminerOld.board_offset (VList [VDict []; VDict all_zero]) = Ok 1
  /\ AntminerOld.fan_offset (flat_payload all_zero) = Ok 3.
Proof.
  split; [|split].
  - destruct (C5_offsets_on_synthetic_mappings (sample_miner offline) fresh_handle
                (flat_payload group11) (VList [VDict []; VDict group11]) group11
                eq_refl eq_refl) as [Hgroup _].
    destruct Hgroup as [Hoff Hboards].
    + intros k Hk.
      assert (Hcases : k = 1 \/ k = 2 \/ k = 3 \/ k = 4 \/ k = 5 \/ k = 6
                       \/ k = 7 \/ k = 8 \/ k = 9 \/ k = 10) by lia.
      repeat (destruct Hcases as [-> | Hcases]; [reflexivity|]).
      subst k; reflexivity.
    + reflexivity.
    + split; [exact Hoff|].
      apply (Hboards eq_refl); reflexivity.
  - apply (proj1 (proj2 (C5_offsets_on_synthetic_mappings (sample_miner offline)
                           fresh_handle (flat_payload all_zero)
                           (VList [VDict []; VDict all_zero]) all_zero
                           eq_refl eq_refl))).
    intros k Hk.
    assert (Hcases : k = 1 \/ k = 2 \/ k = 3 \/ k = 4 \/ k = 5 \/ k = 6
                     \/ k = 7 \/ k = 8 \/ k = 9 \/ k = 10 \/ k = 11 \/ k = 12
                     \/ k = 13 \/ k = 14 \/ k = 15) by lia.
    repeat (destruct Hcases as [-> | Hcases]; [reflexivity|]).
    subst k; reflexivity.
  - apply (proj2 (proj2 (C5_offsets_on_synthetic_mappings (sample_miner offline)
                           fresh_handle (flat_payload all_zero)
                           (VList [VDict []; VDict all_zero]) all_zero
                           eq_refl eq_refl))).
    intros k Hk.
    assert (Hcases : k = 1 \/ k = 2 \/ k = 3 \/ k = 4 \/ k = 5 \/ k = 6
                     \/ k = 7 \/ k = 8) by lia.
    repeat (destruct Hcases as [-> | Hcases]; [reflexivity|]).
    subst k; reflexivity.
Defined.

(** C4 (as amended): for a payload whose [STATS[1]] is a flat mapping, the
    board resolver scans the candidates 1, 6, 11, probing five chip-count
    keys at each; the first candidate with a non-zero reading is the offset,
    1 when there is none, and the board loop runs over the raw suffixes from
    that offset on.  The fan resolver scans the candidates 1 and 5, probing
    four fan keys at each; the offset is the first candidate with a non-zero
    reading plus 2, 3 when there is none, and the fans returned are the
    readings from that offset on. *)
Theorem C4_offset_resolvers (self : miner) (h : handle)
  (api_stats s : value) (d : list (string * value)) :
  Py.getitem_key api_stats "STATS" = Ok s ->
  Py.getitem_idx s 1 = Ok (VDict d) ->
  let board_off :=
    resolved_offset [1; 6; 11] 5 (fun n => nonzero (reading d "chain_acn" n)) 1 in
  let fan_off :=
    match first_hit [1; 5] 4 (fun n => nonzero (reading d "fan" n)) with
    | Some c => c + 2
    | None => 3
    end in
  AntminerOld.board_offset s = Ok board_off
  /\ AntminerOld._get_hashboards self api_stats h =
     with_local []
       (try_except
          (for_each (range_from board_off (expected_hashboards self))
             (AntminerOld.board_step self s board_off))
          is_old_board_error (ret tt)) h
  /\ AntminerOld.fan_offset api_stats = Ok fan_off
  /\ AntminerOld._get_fans self api_stats h =
     (Ok (map (fun k => mkFan (fan_reading d (fan_off + k)))
            (range (expected_fans self))), h).
Proof.
  intros H1 H2 board_off fan_off.
  pose proof (board_offset_resolved s d H2) as Hb.
  pose proof (fan_offset_resolved api_stats s d H1 H2) as Hf.
  repeat split.
  - exact Hb.
  - exact (get_hashboards_loop self h api_stats s d board_off H1 H2 Hb).
  - exact Hf.
  - exact (get_fans_result self h api_stats s d fan_off H1 H2 Hf).
Qed.

Lemma C4_offset_resolvers_witness :
  AntminerOld.board_offset (VList [VDict []; VDict group11]) = Ok 11
  /\ AntminerOld.fan_offset (flat_payload low_fans) = Ok 3
  /\ AntminerOld._get_fans (sample_miner offline) (flat_payload low_fans)
       fresh_handle = (Ok [mkFan (VInt 0); mkFan (VInt 0)], fresh_handle).
Proof.
  pose proof (C4_offset_resolvers (sample_miner offline) fresh_handle
                (flat_payload group11) (VList [VDict []; VDict group11]) group11
                eq_refl eq_refl) as Hboards.
  pose proof (C4_offset_resolvers (sample_miner offline) fresh_handle
                (flat_payload low_fans) (VList [VDict []; VDict low_fans]) low_fans
                eq_refl eq_refl) as Hfans.
  split; [exact (proj1 Hboards)|].
  split; [exact (proj1 (proj2 (proj2 Hfans)))|].
  exact (proj2 (proj2 (proj2 Hfans))).
Defined.

(** C4, the claim as stated, fails for fans: with fans reported at [fan1]
    and [fan2] the first candidate with a non-zero reading is 1, but the
    offset the extraction uses is 3, so it reads [fan3] and [fan4]. *)
Lemma C4_fan_offset_counterexample :
  resolved_offset [1; 5] 4 (fun n => nonzero (reading low_fans "fan" n)) 3 = 1
  /\ AntminerOld.fan_offset (flat_payload low_fans) <>
     Ok (resolved_offset [1; 5] 4 (fun n => nonzero (reading low_fans "fan" n)) 3)
  /\ fst (AntminerOld._get_fans (sample_miner offline) (flat_payload low_fans)
            fresh_handle) = Ok [mkFan (VInt 0); mkFan (VInt 0)].
Proof.
  split; [reflexivity|]. split; [|reflexivity].
  intros H. vm_compute in H. discriminate H.
Qed.

(** ** Boards of the Modern dialect *)

Lemma assign_slot_of (board : value) (f : HashBoard -> HashBoard)
  (hbs : list HashBoard) :
  AntminerModern.assign board f hbs =
  match slot_of board (List.length hbs) with
  | Ok n => (Ok tt, list_update n f hbs)
  | Raise e => (Raise e, hbs)
  end.
Proof.
  unfold AntminerModern.assign, slot_of, bind, lift.
  destruct (Py.getitem_key board "index") as [idx|e]; simpl; reflexivity.
Qed.

Lemma map_list_update {A B} (g : A -> B) (f : A -> A) (f' : B -> B)
  (n : nat) (l : list A) :
  (forall x, g (f x) = f' (g x)) ->
  map g (list_update n f l) = list_update n f' (map g l).
Proof.
  intros Hgf. revert n; induction l as [|x l IH]; intros [|n]; simpl;
    rewrite ?Hgf, ?IH; reflexivity.
Qed.

Lemma list_update_id {A} (n : nat) (l : list A) :
  list_update n (fun x => x) l = l.
Proof.
  revert n; induction l as [|x l IH]; intros [|n]; simpl; rewrite ?IH; reflexivity.
Qed.












Lemma modern_get_hashboards_inv (self : miner) (h h' : handle)
  (hbs : list HashBoard) :
  AntminerModern._get_hashboards self h = (Ok hbs, h') ->
  hbs = AntminerModern.fresh_boards self
  \/ exists api_stats,
       tr self (calls h) RpcStatsNew = Some api_stats
       /\ hbs = snd (AntminerModern.read_chains api_stats
                       (AntminerModern.fresh_boards self)).
Proof.
  unfold AntminerModern._get_hashboards.
  unfold bind at 1, try_except at 1, bind at 1, call at 1.
  destruct (tr self (calls h) RpcStatsNew) as [api_stats|]; simpl.
  - destruct (Py.truthy api_stats); [|intros [= <- <-]; left; reflexivity].
    unfold with_local, try_except.
    destruct (AntminerModern.read_chains api_stats (AntminerModern.fresh_boards self))
      as [[[]|e] s] eqn:E.
    + intros [= <- <-]. right. exists api_stats. rewrite E. auto.
    + destruct (is_LookupError e); simpl; [|discriminate].
      intros [= <- <-]. right. exists api_stats. rewrite E. auto.
  - intros [= <- <-]. left; reflexivity.
Qed.

(** ** Records that are processed to their end *)

Lemma float_limit_pos : 0 < Py.float_limit.
Proof. apply Z.ltb_lt. vm_compute. reflexivity. Qed.

Lemma Qeq_bool_inject_nonzero (k : Z) :
  k <> 0 -> Qeq_bool (inject_Z k) 0 = false.
Proof.
  intros Hk. destruct (Qeq_bool (inject_Z k) 0) eqn:E; [|reflexivity].
  apply Qeq_bool_eq in E. unfold Qeq in E; simpl in E. lia.
Qed.

(** Dividing a number by a non-zero integer: a float, unless an integer
    does not fit. *)
Lemma truediv_numeric (v : value) (k : Z) :
  numeric v = true -> k <> 0 ->
  (exists q, Py.truediv v (VInt k) = Ok (VFloat q))
  \/ Py.truediv v (VInt k) = Raise OverflowError.
Proof.
  unfold numeric, Py.truediv. intros Hv Hk.
  destruct (Py.is_intlike v) as [x|]; cbn.
  - apply Z.eqb_neq in Hk. rewrite Hk.
    destruct (Z.abs x <? Py.float_limit * Z.abs k); eauto.
  - destruct (Py.to_Q v) as [x|]; [|discriminate].
    destruct (Py.float_ok v && Py.convertible k); [|auto].
    rewrite (Qeq_bool_inject_nonzero k Hk). eauto.
Qed.

Lemma add_numeric (a b : value) :
  numeric a = true -> numeric b = true ->
  (exists s, Py.add a b = Ok s /\ numeric s = true)
  \/ Py.add a b = Raise OverflowError.
Proof.
  unfold numeric, Py.add. intros Ha Hb.
  destruct (Py.is_intlike a), (Py.is_intlike b);
    try (left; eexists; split; reflexivity);
    destruct (Py.to_Q a), (Py.to_Q b); try discriminate;
    (destruct (Py.float_ok a && Py.float_ok b);
     [left; eexists; split; reflexivity | right; reflexivity]).
Qed.

Lemma sum_from_numeric (l : list value) :
  Forall (fun x => numeric x = true) l ->
  forall acc, numeric acc = true ->
  (exists s, Py.sum_from acc l = Ok s /\ numeric s = true)
  \/ Py.sum_from acc l = Raise OverflowError.
Proof.
  induction 1 as [|x l Hx _ IH]; intros acc Hacc; simpl; [eauto|].
  destruct (add_numeric acc x Hacc Hx) as [(s & -> & Hs) | ->]; [|auto].
  apply IH; exact Hs.
Qed.

Lemma partial_sum_converts (n k : nat) (a : Z) :
  (k <= n)%nat -> (0 < n)%nat ->
  partial_sum_ok n k (VInt a) -> Z.abs a < Py.float_limit.
Proof.
  unfold partial_sum_ok. pose proof float_limit_pos as HL.
  intros Hk Hn Ha.
  assert (Z.abs a * Z.of_nat n <= Z.of_nat n * (Py.float_limit - 1)) by nia.
  nia.
Qed.

Lemma reading_converts (n : nat) (z : Z) :
  (0 < n)%nat -> Z.abs z * Z.of_nat n < Py.float_limit ->
  Py.convertible z = true.
Proof.
  intros Hn Hz. unfold Py.convertible. apply Z.ltb_lt. nia.
Qed.

Lemma add_in_range (n k : nat) (acc x : value) :
  (S k <= n)%nat ->
  partial_sum_ok n k acc ->
  reading_in_range n x = true ->
  exists s, Py.add acc x = Ok s /\ partial_sum_ok n (S k) s.
Proof.
  intros Hk Hacc Hx.
  unfold reading_in_range in Hx.
  destruct acc as [| | a | q | | |]; try contradiction.
  - destruct (Py.is_intlike x) as [z|] eqn:Ex.
    + apply Z.ltb_lt in Hx.
      exists (VInt (a + z)). unfold Py.add; cbn. rewrite Ex.
      split; [reflexivity|].
      assert (G : Z.abs (a + z) * Z.of_nat n
                  <= Z.of_nat (S k) * (Py.float_limit - 1))
        by (unfold partial_sum_ok in Hacc; nia).
      exact G.
    + destruct x; try discriminate.
      unfold Py.add; cbn.
      assert (Ha : Py.convertible a = true).
      { apply Z.ltb_lt. apply (partial_sum_converts n k); [lia | lia | exact Hacc]. }
      rewrite Ha. cbn. eexists; split; [reflexivity | exact I].
  - destruct (Py.is_intlike x) as [z|] eqn:Ex.
    + apply Z.ltb_lt in Hx.
      destruct x; try discriminate; cbn in Ex; injection Ex as <-;
        unfold Py.add; cbn.
      * eexists; split; [reflexivity | exact I].
      * rewrite (reading_converts n _ ltac:(lia) Hx). cbn.
        eexists; split; [reflexivity | exact I].
    + destruct x; try discriminate.
      unfold Py.add; cbn. eexists; split; [reflexivity | exact I].
Qed.

Lemma sum_from_in_range (n : nat) (l : list value) :
  Forall (fun x => reading_in_range n x = true) l ->
  forall k acc,
    (k + List.length l <= n)%nat ->
    partial_sum_ok n k acc ->
    exists s, Py.sum_from acc l = Ok s
              /\ partial_sum_ok n (k + List.length l) s.
Proof.
  induction 1 as [|x l Hx _ IH]; intros k acc Hk Hacc; simpl.
  - rewrite Nat.add_0_r. eauto.
  - simpl in Hk.
    destruct (add_in_range n k acc x) as (s & -> & Hs); [lia | exact Hacc | exact Hx |].
    destruct (IH (S k) s) as (s' & Hs' & Hok); [lia | exact Hs |].
    exists s'. split; [exact Hs'|].
    replace (k + S (List.length l))%nat with (S k + List.length l)%nat by lia.
    exact Hok.
Qed.

Lemma temps_ok_mean (t : value) :
  temps_ok t ->
  exists data q,
    AntminerModern.nonzero_readings t = Ok data
    /\ AntminerModern.mean data = Ok (VFloat q).
Proof.
  intros (l & -> & Hlen & Hrange & Hnz).
  set (data := filter (fun x => negb (Py.eq_zero x)) l).
  assert (Hdata : Forall (fun x => reading_in_range (List.length l) x = true) data).
  { apply Forall_forall. intros x Hx. apply filter_In in Hx as [Hx _].
    rewrite Forall_forall in Hrange. apply Hrange; exact Hx. }
  assert (Hsub : (List.length data <= List.length l)%nat)
    by apply filter_length_le.
  assert (Hpos : (0 < List.length data)%nat).
  { apply Exists_exists in Hnz as (x & Hx & Hzero).
    assert (Hin : In x data)
      by (apply filter_In; split; [exact Hx | rewrite Hzero; reflexivity]).
    destruct data; [contradiction | simpl; lia]. }
  destruct (sum_from_in_range (List.length l) data Hdata 0%nat (VInt 0))
    as (s & Hs & Hok); [simpl; lia | cbn; pose proof float_limit_pos; lia |].
  cbn [Nat.add] in Hok.
  exists data. unfold AntminerModern.nonzero_readings. simpl. fold data.
  unfold AntminerModern.mean, Py.sum. rewrite Hs. cbn.
  assert (Hm : Z.of_nat (List.length data) <> 0) by lia.
  destruct s as [| | a | q | | |]; try contradiction.
  - unfold Py.truediv; cbn.
    apply Z.eqb_neq in Hm. rewrite Hm.
    assert (Ha : Z.abs a < Py.float_limit)
      by (eapply (partial_sum_converts (List.length l) (List.length data));
          [exact Hsub | lia | exact Hok]).
    replace (Z.abs a <? Py.float_limit * Z.abs (Z.of_nat (List.length data)))
      with true.
    + eexists; split; reflexivity.
    + symmetry. apply Z.ltb_lt. nia.
  - unfold Py.truediv; cbn.
    replace (Py.convertible (Z.of_nat (List.length data))) with true.
    + rewrite (Qeq_bool_inject_nonzero _ Hm). eexists; split; reflexivity.
    + symmetry. unfold Py.convertible. apply Z.ltb_lt. lia.
Qed.









(** ** Hashboard counts of both dialects *)




(** * Further properties of the backends *)

(** ** Which extractor issues which transport call *)

Lemma silent_ret {A} (a : A) : silent (ret a).
Proof. intros h; reflexivity. Qed.

Lemma silent_lift {A} (r : res A) : silent (lift r).
Proof. intros h; reflexivity. Qed.

Lemma silent_get_state : silent (@get_state handle).
Proof. intros h; reflexivity. Qed.

Lemma silent_set_light (v : value) : silent (set_light v).
Proof. intros h; reflexivity. Qed.

Lemma silent_with_local {St} (s0 : St) (m : M St unit) :
  silent (with_local s0 m).
Proof.
  intros h. unfold with_local. destruct (m s0) as [[[]|e] s]; reflexivity.
Qed.

Lemma silent_bind {A B} (m : M handle A) (f : A -> M handle B) :
  silent m -> (forall a, silent (f a)) -> silent (bind m f).
Proof.
  intros Hm Hf h. unfold bind. specialize (Hm h).
  destruct (m h) as [[a|e] h1]; simpl in *; [|exact Hm].
  rewrite (Hf a h1). exact Hm.
Qed.

Lemma silent_try_except {A} (m handler : M handle A) (caught : exn -> bool) :
  silent m -> silent handler -> silent (try_except m caught handler).
Proof.
  intros Hm Hh h. unfold try_except. specialize (Hm h).
  destruct (m h) as [[a|e] h1]; simpl in *; [exact Hm|].
  destruct (caught e); simpl; [|exact Hm].
  rewrite (Hh h1). exact Hm.
Qed.

Lemma queries_once_bind {A B} (c : command) (m : M handle A) (f : A -> M handle B) :
  queries_once c m -> (forall a, silent (f a)) -> queries_once c (bind m f).
Proof.
  intros Hm Hf h. unfold bind. specialize (Hm h).
  destruct (m h) as [[a|e] h1]; simpl in *; [|exact Hm].
  rewrite (Hf a h1). exact Hm.
Qed.

Lemma fetch_truthy (self : miner) (payload : value) (c : command) :
  Py.truthy payload = true -> fetch_if_missing self payload c = ret payload.
Proof.
  intros H. unfold fetch_if_missing. rewrite H. reflexivity.
Qed.

Lemma fetch_falsy_once (self : miner) (payload : value) (c : command) :
  Py.truthy payload = false -> queries_once c (fetch_if_missing self payload c).
Proof.
  intros H h. unfold fetch_if_missing, try_except, call. rewrite H; simpl.
  destruct (tr self (calls h) c); reflexivity.
Qed.

Create HintDb silent.

#[local] Hint Resolve silent_ret silent_lift silent_get_state silent_set_light
  silent_with_local : silent.

Ltac silence :=
  repeat first
    [ progress auto with silent
    | apply silent_bind; [|intros ?]
    | apply silent_try_except
    | match goal with
      | |- silent (if ?b then _ else _) => destruct b
      | |- silent (match ?x with _ => _ end) => destruct x
      end ].

(** An extractor that is offered a non-empty payload works on it and
    issues no transport call. *)
Theorem payload_not_refetched (self : miner) (payload : value) :
  Py.truthy payload = true ->
  silent (AntminerModern._get_hostname self payload)
  /\ silent (AntminerModern._get_expected_hashrate self payload)
  /\ silent (AntminerModern._get_uptime self payload)
  /\ silent (AntminerModern._is_mining self payload)
  /\ silent (AntminerModern._get_fault_light self payload)
  /\ silent (AntminerOld._get_hostname self payload)
  /\ silent (AntminerOld._get_fans self payload)
  /\ silent (AntminerOld._get_hashboards self payload)
  /\ silent (AntminerOld._get_uptime self payload)
  /\ silent (AntminerOld._get_fault_light self payload).
Proof.
  intros H.
  repeat split;
    unfold AntminerModern._get_hostname, AntminerModern._get_expected_hashrate,
      AntminerModern._get_uptime, AntminerModern._is_mining,
      AntminerModern._get_fault_light, AntminerOld._get_hostname,
      AntminerOld._get_fans, AntminerOld._get_hashboards,
      AntminerOld._get_uptime, AntminerOld._get_fault_light;
    rewrite (fetch_truthy self payload _ H);
    silence.
Qed.

Lemma payload_not_refetched_witness :
  silent (AntminerOld._get_hashboards (sample_miner offline) (flat_payload group11)).
Proof.
  exact (proj1 (proj2 (proj2 (proj2 (proj2 (proj2 (proj2 (proj2
           (payload_not_refetched (sample_miner offline) (flat_payload group11)
              eq_refl))))))))).
Defined.

(** Offered no payload, each of these eight extractors issues exactly one
    query, the one of its declared source, whether the query fails or not:
    hostname, expected hashrate, uptime and is-mining of the Modern dialect;
    hostname, fans, hashboards and uptime of the Old dialect.  The Modern
    hashboard extractor, which takes no payload, always issues exactly its
    own, and so does the Old MAC extractor.  Not covered: the Modern MAC
    extractor and the Old is-mining extractor, which may go on to a second
    query; the fault-light reads, which issue none while the cached flag is
    set; the Modern error extractor, whose summary query is not one of the
    recorded commands. *)
Theorem empty_payload_queried_once (self : miner) (payload : value) :
  Py.truthy payload = false ->
  queries_once WebGetSystemInfo (AntminerModern._get_hostname self payload)
  /\ queries_once RpcStats (AntminerModern._get_expected_hashrate self payload)
  /\ queries_once RpcStats (AntminerModern._get_uptime self payload)
  /\ queries_once WebGetMinerConf (AntminerModern._is_mining self payload)
  /\ queries_once RpcStatsNew (AntminerModern._get_hashboards self)
  /\ queries_once WebGetSystemInfo (AntminerOld._get_hostname self payload)
  /\ queries_once RpcStats (AntminerOld._get_fans self payload)
  /\ queries_once RpcStats (AntminerOld._get_hashboards self payload)
  /\ queries_once RpcStats (AntminerOld._get_uptime self payload)
  /\ queries_once WebGetSystemInfo (AntminerOld._get_mac self).
Proof.
  intros H.
  assert (Hmac : queries_once WebGetSystemInfo (AntminerOld._get_mac self)).
  { intros h. unfold AntminerOld._get_mac, try_except, bind, call, lift, ret.
    destruct (tr self (calls h) WebGetSystemInfo) as [data|]; [|reflexivity].
    destruct (Py.truthy data); [|reflexivity].
    destruct (Py.getitem_key data "macaddr") as [m|e]; [reflexivity|].
    destruct (is_KeyError e); reflexivity. }
  repeat split; try exact Hmac; clear Hmac;
    unfold AntminerModern._get_hostname, AntminerModern._get_expected_hashrate,
      AntminerModern._get_uptime, AntminerModern._is_mining,
      AntminerModern._get_hashboards, AntminerOld._get_hostname,
      AntminerOld._get_fans, AntminerOld._get_hashboards,
      AntminerOld._get_uptime;
    try (apply queries_once_bind;
         [apply fetch_falsy_once; exact H | intros ?; silence]).
  apply queries_once_bind; [|intros ?; silence].
  intros h. unfold try_except, bind, call.
  destruct (tr self (calls h) RpcStatsNew); reflexivity.
Qed.

Lemma empty_payload_queried_once_witness :
  queries_once RpcStats (AntminerOld._get_fans (sample_miner offline) VNone).
Proof.
  exact (proj1 (proj2 (proj2 (proj2 (proj2 (proj2 (proj2
           (empty_payload_queried_once (sample_miner offline) VNone eq_refl)))))))).
Defined.

(** ** Lookup errors never escape an extractor *)

Lemma never_ret {St A} (bad : exn -> bool) (a : A) :
  never_raises bad (@ret St A a).
Proof. intros s e; discriminate. Qed.

Lemma never_get_state {St} (bad : exn -> bool) :
  never_raises bad (@get_state St).
Proof. intros s e; discriminate. Qed.

Lemma never_set_light (bad : exn -> bool) (v : value) :
  never_raises bad (set_light v).
Proof. intros s e; discriminate. Qed.

Lemma never_bind {St A B} (bad : exn -> bool) (m : M St A) (f : A -> M St B) :
  never_raises bad m -> (forall a, never_raises bad (f a)) ->
  never_raises bad (bind m f).
Proof.
  intros Hm Hf s e. unfold bind. specialize (Hm s).
  destruct (m s) as [[a|e'] s1]; simpl in *.
  - apply Hf.
  - intros [= <-]. apply Hm; reflexivity.
Qed.

Lemma never_try_except {St A} (bad caught : exn -> bool) (m handler : M St A) :
  (forall s e, fst (m s) = Raise e -> caught e = false -> bad e = false) ->
  never_raises bad handler ->
  never_raises bad (try_except m caught handler).
Proof.
  intros Hm Hh s e. unfold try_except. specialize (Hm s).
  destruct (m s) as [[a|e'] s1]; simpl in *; [discriminate|].
  destruct (caught e') eqn:Ec.
  - apply Hh.
  - simpl. intros [= <-]. apply Hm; [reflexivity | exact Ec].
Qed.

(** A [try] whose [except] clause covers the classes [bad]. *)
Lemma never_try_covering {St A} (bad caught : exn -> bool) (m handler : M St A) :
  (forall e, caught e = false -> bad e = false) ->
  never_raises bad handler ->
  never_raises bad (try_except m caught handler).
Proof.
  intros Hc Hh. apply never_try_except; [|exact Hh].
  intros s e _. apply Hc.
Qed.

Lemma never_with_local {H St} (bad : exn -> bool) (s0 : St) (m : M St unit) :
  (forall e, fst (m s0) = Raise e -> bad e = false) ->
  never_raises bad (@with_local H St s0 m).
Proof.
  intros Hm h e. unfold with_local. specialize (Hm e).
  destruct (m s0) as [[[]|e'] s]; simpl in *; [discriminate|].
  intros [= <-]. apply Hm; reflexivity.
Qed.

Lemma never_fetch (self : miner) (bad : exn -> bool) (payload : value) (c : command) :
  never_raises bad (fetch_if_missing self payload c).
Proof.
  intros h e. unfold fetch_if_missing, try_except, call.
  destruct (negb (Py.truthy payload)); [|discriminate].
  destruct (tr self (calls h) c); discriminate.
Qed.

Lemma getitem_key_raises (v : value) (k : string) (e : exn) :
  Py.getitem_key v k = Raise e -> e = KeyError \/ e = TypeError.
Proof.
  destruct v; simpl; try (intros [= <-]; auto).
  destruct (dict_lookup d k); [discriminate | intros [= <-]; auto].
Qed.

(** The guarded lookup [try: ... v[k] ... except KeyError] of the
    single-key extractors lets no lookup error through. *)
Lemma never_lookup_key {A} (v : value) (k : string) (f : value -> M handle A)
  (handler : M handle A) :
  (forall x, never_raises is_LookupError (f x)) ->
  never_raises is_LookupError handler ->
  never_raises is_LookupError
    (try_except (x <- lift (Py.getitem_key v k);; f x) is_KeyError handler).
Proof.
  intros Hf Hh. apply never_try_except; [|exact Hh].
  intros s e. unfold bind, lift.
  destruct (Py.getitem_key v k) as [x|e'] eqn:E; simpl.
  - intros Hr _. eapply Hf; exact Hr.
  - intros [= <-] Hc.
    destruct (getitem_key_raises _ _ _ E) as [-> | ->]; [discriminate | reflexivity].
Qed.

Lemma old_board_error_covers (e : exn) :
  is_old_board_error e = false -> is_LookupError e = false.
Proof. destruct e; simpl; auto. Qed.

(** Whatever the payload and whatever the transports answer, none of these
    fifteen extractors lets a [KeyError] or an [IndexError] escape:
    hostname, MAC, hashboards, fault-light read, expected hashrate,
    is-mining and uptime of the Modern dialect; MAC, fault-light read,
    hostname, fans, hashboards, is-mining and uptime of the Old dialect;
    and the Modern error extractor, provided its summary query raises
    neither.  [get_config], whose parser is not part of this file, is not
    covered. *)
Theorem lookup_errors_never_escape (self : miner) (payload : value) :
  never_raises is_LookupError (AntminerModern._get_hostname self payload)
  /\ never_raises is_LookupError (AntminerModern._get_mac self payload)
  /\ never_raises is_LookupError (AntminerModern._get_hashboards self)
  /\ never_raises is_LookupError (AntminerModern._get_fault_light self payload)
  /\ never_raises is_LookupError (AntminerModern._get_expected_hashrate self payload)
  /\ never_raises is_LookupError (AntminerModern._is_mining self payload)
  /\ never_raises is_LookupError (AntminerModern._get_uptime self payload)
  /\ never_raises is_LookupError (AntminerOld._get_mac self)
  /\ never_raises is_LookupError (AntminerOld._get_fault_light self payload)
  /\ never_raises is_LookupError (AntminerOld._get_hostname self payload)
  /\ never_raises is_LookupError (AntminerOld._get_fans self payload)
  /\ never_raises is_LookupError (AntminerOld._get_hashboards self payload)
  /\ never_raises is_LookupError (AntminerOld._is_mining self payload)
  /\ never_raises is_LookupError (AntminerOld._get_uptime self payload)
  /\ (forall (E : Type) (X19Error : value -> E) (summary : M handle value),
        never_raises is_LookupError summary ->
        never_raises is_LookupError
          (AntminerModern._get_errors X19Error summary payload)).
Proof.
  assert (Hcall : forall c s e,
             fst (call self c s) = Raise e -> is_LookupError e = false).
  { intros c s e. unfold call. simpl.
    destruct (tr self (calls s) c); [discriminate | intros [= <-]; reflexivity]. }
  assert (Hkey : forall (v : value) (k : string) (s : handle) e,
             fst (lift (Py.getitem_key v k) s) = Raise e ->
             is_KeyError e = false -> is_LookupError e = false).
  { intros v k s e. unfold lift; simpl. intros E Hc.
    destruct (getitem_key_raises _ _ _ E) as [-> | ->]; [discriminate | reflexivity]. }
  repeat match goal with |- _ /\ _ => split end.
  - unfold AntminerModern._get_hostname.
    apply never_bind; [apply never_fetch | intros info].
    destruct (Py.truthy info); [|apply never_ret].
    apply never_try_except; [apply Hkey | apply never_ret].
  - unfold AntminerModern._get_mac.
    apply never_bind; [apply never_fetch | intros info].
    apply never_bind.
    + destruct (Py.truthy info); [|apply never_ret].
      apply never_lookup_key; [intros; apply never_ret | apply never_ret].
    + intros [v|]; [apply never_ret|].
      apply never_try_except; [|apply never_ret].
      intros s e. unfold bind.
      pose proof (Hcall WebGetNetworkInfo s) as Hc.
      destruct (call self WebGetNetworkInfo s) as [[data|e'] s1]; simpl in Hc |- *.
      * destruct (Py.truthy data); [apply Hkey | discriminate].
      * intros [= <-] _. apply Hc; reflexivity.
  - unfold AntminerModern._get_hashboards.
    apply never_bind.
    + apply never_try_except; [|apply never_ret].
      intros s e. unfold bind.
      destruct (call self RpcStatsNew s) as [[data|e'] s1] eqn:E; simpl;
        [discriminate|].
      intros [= <-] _. apply (Hcall RpcStatsNew s). rewrite E; reflexivity.
    + intros [api_stats|]; [|apply never_ret].
      destruct (Py.truthy api_stats); [|apply never_ret].
      apply never_with_local. intros e.
      apply (never_try_covering is_LookupError is_LookupError);
        [auto | apply never_ret].
  - unfold AntminerModern._get_fault_light.
    apply never_bind; [apply never_get_state | intros h0].
    destruct (Py.truthy (light h0)); [apply never_ret|].
    apply never_bind; [apply never_fetch | intros status].
    apply never_bind; [|intros; apply never_bind;
                         [apply never_get_state | intros; apply never_ret]].
    destruct (Py.truthy status); [|apply never_ret].
    apply never_lookup_key; [intros; apply never_set_light | apply never_ret].
  - unfold AntminerModern._get_expected_hashrate.
    apply never_bind; [apply never_fetch | intros stats].
    destruct (Py.truthy stats); [|apply never_ret].
    apply never_try_covering; [auto | apply never_ret].
  - unfold AntminerModern._is_mining.
    apply never_bind; [apply never_fetch | intros conf].
    destruct (Py.truthy conf); [|apply never_ret].
    apply never_try_covering; [auto | apply never_ret].
  - unfold AntminerModern._get_uptime.
    apply never_bind; [apply never_fetch | intros stats].
    destruct (Py.truthy stats); [|apply never_ret].
    apply never_try_covering; [auto | apply never_ret].
  - unfold AntminerOld._get_mac.
    apply never_try_except; [|apply never_ret].
    intros s e. unfold bind.
    pose proof (Hcall WebGetSystemInfo s) as Hc.
    destruct (call self WebGetSystemInfo s) as [[data|e'] s1]; simpl in Hc |- *.
    + destruct (Py.truthy data); [apply Hkey | discriminate].
    + intros [= <-] _. apply Hc; reflexivity.
  - unfold AntminerOld._get_fault_light.
    apply never_bind; [apply never_get_state | intros h0].
    destruct (Py.truthy (light h0)); [apply never_ret|].
    apply never_bind; [apply never_fetch | intros status].
    apply never_bind; [|intros; apply never_bind;
                         [apply never_get_state | intros; apply never_ret]].
    destruct (Py.truthy status); [|apply never_ret].
    apply never_lookup_key; [intros; apply never_set_light | apply never_ret].
  - unfold AntminerOld._get_hostname.
    apply never_bind; [apply never_fetch | intros info].
    destruct (Py.truthy info); [|apply never_ret].
    apply never_try_except; [apply Hkey | apply never_ret].
  - unfold AntminerOld._get_fans.
    apply never_bind; [apply never_fetch | intros stats]. simpl.
    destruct (Py.truthy stats); [|apply never_ret].
    apply never_with_local. intros e.
    apply (never_try_covering is_LookupError is_LookupError);
      [auto | apply never_ret].
  - unfold AntminerOld._get_hashboards.
    apply never_bind; [apply never_fetch | intros stats]. simpl.
    destruct (Py.truthy stats); [|apply never_ret].
    apply never_with_local. intros e.
    apply (never_try_covering is_LookupError is_old_board_error);
      [apply old_board_error_covers | apply never_ret].
  - unfold AntminerOld._is_mining.
    apply never_bind; [apply never_fetch | intros conf].
    apply never_bind.
    + destruct (Py.truthy conf); [|apply never_ret].
      apply never_try_covering; [auto | apply never_ret].
    + intros [v|]; [apply never_ret|].
      apply never_bind.
      * apply never_try_except; [|apply never_ret].
        intros s e Hr Hc. eapply Hcall; exact Hr.
      * intros summary. destruct summary as [| | | | | |[|]]; apply never_ret.
  - unfold AntminerOld._get_uptime.
    apply never_bind; [apply never_fetch | intros stats].
    destruct (Py.truthy stats); [|apply never_ret].
    apply never_try_covering; [auto | apply never_ret].
  - intros E X19Error summary Hsummary. unfold AntminerModern._get_errors.
    apply never_bind.
    + destruct (negb (Py.truthy payload)); [|apply never_ret].
      apply never_try_except; [|apply never_ret].
      intros s e Hr _. exact (Hsummary s e Hr).
    + intros ws. cbv zeta.
      destruct (Py.truthy ws); [|apply never_ret].
      apply never_with_local. intros e.
      apply (never_try_covering is_LookupError is_LookupError);
        [auto | apply never_ret].
Qed.

Lemma lookup_errors_never_escape_witness :
  never_raises is_LookupError
    (AntminerModern._get_errors (fun msg => msg) (ret VNone) sample_summary).
Proof.
  refine (proj2 (proj2 (proj2 (proj2 (proj2 (proj2 (proj2 (proj2 (proj2 (proj2
           (proj2 (proj2 (proj2 (proj2
             (lookup_errors_never_escape (sample_miner offline) sample_summary)
           ))))))))))))) value (fun msg => msg) (ret VNone) _).
  intros s e H. discriminate H.
Defined.

(** ** Single-value extractors *)

Lemma bind_ret {St A B} (a : A) (f : A -> M St B) (s : St) :
  bind (ret a) f s = f a s.
Proof. reflexivity. Qed.

Lemma dict_truthy (d : list (string * value)) :
  d <> [] -> Py.truthy (VDict d) = true.
Proof.
  destruct d; [contradiction | reflexivity].
Qed.

(** The Modern MAC extractor answers from the system information when it
    holds a [macaddr], without any query.  When the system information is a
    mapping without that key it asks the network information instead, once:
    its [macaddr] is the answer, and an empty answer or one without the key
    gives [None]. *)
Theorem modern_mac_fallback (self : miner) (h : handle) (info : value) :
  (forall m, Py.getitem_key info "macaddr" = Ok m ->
     AntminerModern._get_mac self info h = (Ok m, h))
  /\ (forall d data,
        info = VDict d -> d <> [] -> dict_lookup d "macaddr" = None ->
        tr self (calls h) WebGetNetworkInfo = Some data ->
        let h1 := mkHandle (light h) (calls h ++ [WebGetNetworkInfo]) in
        (forall m, Py.getitem_key data "macaddr" = Ok m ->
           AntminerModern._get_mac self info h = (Ok m, h1))
        /\ (Py.truthy data = false ->
            AntminerModern._get_mac self info h = (Ok VNone, h1))
        /\ (forall d', data = VDict d' -> dict_lookup d' "macaddr" = None ->
            AntminerModern._get_mac self info h = (Ok VNone, h1))).
Proof.
  split.
  - intros m Hm. pose proof (getitem_key_truthy _ _ _ Hm) as Ht.
    unfold AntminerModern._get_mac. rewrite (fetch_truthy _ _ _ Ht).
    unfold bind at 1, ret at 1. rewrite Ht.
    unfold bind, try_except, lift. rewrite Hm. reflexivity.
  - intros d data -> Hd Hnone Htr h1.
    pose proof (dict_truthy d Hd) as Ht.
    assert (Hmiss : AntminerModern._get_mac self (VDict d) h =
                    match (if Py.truthy data
                           then lift (Py.getitem_key data "macaddr") h1
                           else ret VNone h1) with
                    | (Ok v, s') => (Ok v, s')
                    | (Raise e, s') =>
                        if is_KeyError e then (Ok VNone, s') else (Raise e, s')
                    end).
    { assert (Hk : Py.getitem_key (VDict d) "macaddr" = Raise KeyError)
        by (simpl; rewrite Hnone; reflexivity).
      unfold AntminerModern._get_mac. rewrite (fetch_truthy _ _ _ Ht).
      rewrite bind_ret. rewrite Ht, Hk.
      unfold bind at 1, try_except at 1, bind at 1, lift at 1. simpl.
      unfold try_except, bind at 1, call. rewrite Htr.
      destruct (Py.truthy data); reflexivity. }
    rewrite Hmiss. repeat split.
    + intros m Hm. rewrite (getitem_key_truthy _ _ _ Hm).
      unfold lift. rewrite Hm. reflexivity.
    + intros Hfalsy. rewrite Hfalsy. reflexivity.
    + intros d' -> Hnone'.
      destruct (Py.truthy (VDict d')); [|reflexivity].
      unfold lift; simpl. rewrite Hnone'. reflexivity.
Qed.

Lemma modern_mac_fallback_witness :
  AntminerModern._get_mac
    (sample_miner (answering (VDict [("macaddr", VStr "AA:BB")])))
    (VDict [("hostname", VStr "m1")]) fresh_handle
  = (Ok (VStr "AA:BB"), mkHandle (VBool false) [WebGetNetworkInfo]).
Proof.
  exact (proj1 (proj2 (modern_mac_fallback
                         (sample_miner (answering (VDict [("macaddr", VStr "AA:BB")])))
                         fresh_handle (VDict [("hostname", VStr "m1")]))
                  [("hostname", VStr "m1")] (VDict [("macaddr", VStr "AA:BB")])
                  eq_refl ltac:(discriminate) eq_refl eq_refl)
           (VStr "AA:BB") eq_refl).
Defined.

Lemma lacks_entry_raises (stats : value) (key : string) :
  lacks_entry stats key ->
  exists e, stats_entry stats key = Raise e /\ is_LookupError e = true.
Proof.
  unfold stats_entry.
  intros [(d & -> & Hd) | [(l & Hs & Hl) | (s & d1 & Hs & H1 & Hk)]].
  - exists KeyError. simpl. rewrite Hd. auto.
  - exists IndexError. rewrite Hs. simpl. unfold Py.norm_index.
    replace (1 <? Z.of_nat (List.length l)) with false
      by (symmetry; apply Z.ltb_ge; lia).
    simpl.
    replace (- Z.of_nat (List.length l) <=? 1) with true
      by (symmetry; apply Z.leb_le; lia).
    auto.
  - exists KeyError. rewrite Hs. simpl. rewrite H1. simpl. rewrite Hk. auto.
Qed.

Lemma py_int_not_lookup (self : miner) (v : value) (e : exn) :
  py_int self v = Raise e -> is_LookupError e = false.
Proof.
  destruct v; simpl; try (intros [= <-]; reflexivity); try discriminate.
  destruct (int_of_str self s); [discriminate | intros [= <-]; reflexivity].
Qed.

(** What the uptime extractors do with a payload, in terms of its
    [Elapsed] entry. *)
Lemma uptime_by_entry (self : miner) (h : handle) (stats : value) :
  Py.truthy stats = true ->
  AntminerModern._get_uptime self stats h =
  match stats_entry stats "Elapsed" with
  | Ok elapsed => (py_int self elapsed, h)
  | Raise e => (if is_LookupError e then Ok VNone else Raise e, h)
  end.
Proof.
  intros Ht. unfold AntminerModern._get_uptime, stats_entry.
  rewrite (fetch_truthy _ _ _ Ht), bind_ret, Ht.
  unfold try_except, bind, lift.
  destruct (Py.getitem_key stats "STATS") as [s|e]; simpl;
    [|destruct (is_LookupError e); reflexivity].
  destruct (Py.getitem_idx s 1) as [s1|e]; simpl;
    [|destruct (is_LookupError e); reflexivity].
  destruct (Py.getitem_key s1 "Elapsed") as [elapsed|e]; simpl;
    [|destruct (is_LookupError e); reflexivity].
  destruct (py_int self elapsed) as [n|e] eqn:E; [reflexivity|].
  rewrite (py_int_not_lookup _ _ _ E). reflexivity.
Qed.

(** Uptime, in both dialects: the integer value of [STATS[1]["Elapsed"]]
    when the payload has it, [None] when the payload lacks the entry. *)
Theorem uptime_of_payload (self : miner) (h : handle) (stats : value) :
  Py.truthy stats = true ->
  (forall elapsed n,
     stats_entry stats "Elapsed" = Ok elapsed ->
     py_int self elapsed = Ok n ->
     AntminerModern._get_uptime self stats h = (Ok n, h)
     /\ AntminerOld._get_uptime self stats h = (Ok n, h))
  /\ (lacks_entry stats "Elapsed" ->
      AntminerModern._get_uptime self stats h = (Ok VNone, h)
      /\ AntminerOld._get_uptime self stats h = (Ok VNone, h)).
Proof.
  intros Ht.
  change (AntminerOld._get_uptime self stats h)
    with (AntminerModern._get_uptime self stats h).
  rewrite (uptime_by_entry self h stats Ht).
  split.
  - intros elapsed n -> ->. auto.
  - intros Hl. destruct (lacks_entry_raises _ _ Hl) as (e & -> & ->). auto.
Qed.

Lemma uptime_of_payload_witness :
  AntminerOld._get_uptime (sample_miner offline)
    (flat_payload [("Elapsed", VInt 3600)]) fresh_handle
  = (Ok (VInt 3600), fresh_handle)
  /\ AntminerModern._get_uptime (sample_miner offline)
       (VDict [("STATS", VList [VDict []])]) fresh_handle
     = (Ok VNone, fresh_handle).
Proof.
  split.
  - exact (proj2 (proj1 (uptime_of_payload (sample_miner offline) fresh_handle
                           (flat_payload [("Elapsed", VInt 3600)]) eq_refl)
                    (VInt 3600) (VInt 3600) eq_refl eq_refl)).
  - apply (proj2 (uptime_of_payload (sample_miner offline) fresh_handle
                    (VDict [("STATS", VList [VDict []])]) eq_refl)).
    right; left. exists [VDict []]. split; [reflexivity | simpl; lia].
Defined.

(** Expected hashrate: a [STATS[1]] without ["rate_unit"] is read as "GH";
    a payload that lacks the ["total_rateideal"] entry gives [None]. *)
Theorem expected_hashrate_defaults (self : miner) (h : handle) (stats : value) :
  Py.truthy stats = true ->
  (forall s d v,
     Py.getitem_key stats "STATS" = Ok s ->
     Py.getitem_idx s 1 = Ok (VDict d) ->
     dict_lookup d "total_rateideal" = Some v ->
     dict_lookup d "rate_unit" = None ->
     AntminerModern._get_expected_hashrate self stats h = (hashrate_table v "GH", h))
  /\ (lacks_entry stats "total_rateideal" ->
      AntminerModern._get_expected_hashrate self stats h = (Ok VNone, h)).
Proof.
  intros Ht.
  unfold AntminerModern._get_expected_hashrate.
  rewrite (fetch_truthy _ _ _ Ht), bind_ret, Ht.
  split.
  - intros s d v Hs H1 Hv Hu.
    unfold try_except, bind, lift. rewrite Hs, H1; simpl. rewrite Hv, Hu; simpl.
    unfold hashrate_table; simpl.
    destruct (Py.truediv v (VInt 1000)) as [q|e] eqn:Ediv; simpl.
    + destruct (Py.round2 q) as [r|e] eqn:Er; [reflexivity|].
      rewrite (round2_not_lookup _ _ Er); reflexivity.
    + rewrite (truediv_not_lookup _ _ _ Ediv); reflexivity.
  - intros Hl. destruct (lacks_entry_raises _ _ Hl) as (e & He & Hlook).
    unfold stats_entry in He. unfold try_except, bind, lift.
    destruct (Py.getitem_key stats "STATS") as [s|e1]; simpl in *.
    + destruct (Py.getitem_idx s 1) as [s1|e2]; simpl in *.
      * rewrite He. rewrite Hlook. reflexivity.
      * injection He as ->. rewrite Hlook. reflexivity.
    + injection He as ->. rewrite Hlook. reflexivity.
Qed.

Lemma expected_hashrate_defaults_witness :
  AntminerModern._get_expected_hashrate (sample_miner offline)
    (flat_payload [("total_rateideal", VInt 14000)]) fresh_handle
  = (hashrate_table (VInt 14000) "GH", fresh_handle).
Proof.
  exact (proj1 (expected_hashrate_defaults (sample_miner offline) fresh_handle
                  (flat_payload [("total_rateideal", VInt 14000)]) eq_refl)
           (VList [VDict []; VDict [("total_rateideal", VInt 14000)]])
           [("total_rateideal", VInt 14000)] (VInt 14000)
           eq_refl eq_refl eq_refl eq_refl).
Defined.

(** ** IS_MINING *)

Lemma num_eq_int (n m : Z) : Py.num_eq (VInt n) (VInt m) = (n =? m).
Proof.
  unfold Py.num_eq, Qeq_bool; simpl. rewrite !Z.mul_1_r. reflexivity.
Qed.

(** IS_MINING in the Old dialect.  A work mode that [int] accepts decides:
    mode 1 (sleep) is not mining, any other mode is.  A configuration
    without a work mode leaves the decision to one RPC summary query:
    nothing is known when it fails, the miner is idle when it answers with
    an empty mapping, and mining when it answers with anything else. *)
Theorem old_is_mining_table (self : miner) (h : handle) (conf : value) :
  (forall mode n,
     Py.getitem_key conf "bitmain-work-mode" = Ok mode ->
     py_int self mode = Ok (VInt n) ->
     AntminerOld._is_mining self conf h = (Ok (VBool (negb (n =? 1))), h))
  /\ (forall d,
        conf = VDict d -> d <> [] -> dict_lookup d "bitmain-work-mode" = None ->
        let h1 := mkHandle (light h) (calls h ++ [RpcSummary]) in
        (tr self (calls h) RpcSummary = None ->
         AntminerOld._is_mining self conf h = (Ok VNone, h1))
        /\ (tr self (calls h) RpcSummary = Some (VDict []) ->
            AntminerOld._is_mining self conf h = (Ok (VBool false), h1))
        /\ (forall summary,
              tr self (calls h) RpcSummary = Some summary ->
              summary <> VNone -> summary <> VDict [] ->
              AntminerOld._is_mining self conf h = (Ok (VBool true), h1))).
Proof.
  split.
  - intros mode n Hmode Hint.
    pose proof (getitem_key_truthy _ _ _ Hmode) as Ht.
    unfold AntminerOld._is_mining.
    rewrite (fetch_truthy _ _ _ Ht), bind_ret, Ht.
    unfold bind, try_except, lift. rewrite Hmode, Hint. simpl.
    rewrite num_eq_int. reflexivity.
  - intros d -> Hd Hnone h1.
    pose proof (dict_truthy d Hd) as Ht.
    assert (Hk : Py.getitem_key (VDict d) "bitmain-work-mode" = Raise KeyError)
      by (simpl; rewrite Hnone; reflexivity).
    assert (Hmiss : AntminerOld._is_mining self (VDict d) h =
                    match tr self (calls h) RpcSummary with
                    | Some VNone | None => (Ok VNone, h1)
                    | Some (VDict []) => (Ok (VBool false), h1)
                    | Some _ => (Ok (VBool true), h1)
                    end).
    { unfold AntminerOld._is_mining.
      rewrite (fetch_truthy _ _ _ Ht), bind_ret, Ht, Hk.
      unfold bind at 1, try_except at 1, bind at 1, lift at 1. simpl.
      unfold bind, try_except, call.
      destruct (tr self (calls h) RpcSummary) as [summary|]; simpl;
        [|reflexivity].
      destruct summary as [| | | | | |[|]]; reflexivity. }
    rewrite Hmiss. repeat split.
    + intros ->. reflexivity.
    + intros ->. reflexivity.
    + intros summary -> Hn He.
      destruct summary as [| | | | | |[|]]; try reflexivity; contradiction.
Qed.

Lemma old_is_mining_table_witness :
  AntminerOld._is_mining (sample_miner offline)
    (VDict [("bitmain-work-mode", VStr "1")]) fresh_handle
  = (Ok (VBool false), fresh_handle)
  /\ AntminerOld._is_mining (sample_miner (answering (VDict [])))
       (VDict [("bitmain-freq", VStr "550")]) fresh_handle
     = (Ok (VBool false), mkHandle (VBool false) [RpcSummary]).
Proof.
  split.
  - exact (proj1 (old_is_mining_table (sample_miner offline) fresh_handle
                    (VDict [("bitmain-work-mode", VStr "1")]))
             (VStr "1") 1 eq_refl eq_refl).
  - exact (proj1 (proj2 (proj2 (old_is_mining_table
                                  (sample_miner (answering (VDict [])))
                                  fresh_handle
                                  (VDict [("bitmain-freq", VStr "550")]))
                           [("bitmain-freq", VStr "550")] eq_refl
                           ltac:(discriminate) eq_refl))
             eq_refl).
Defined.

(** IS_MINING in the Modern dialect, for a configuration whose work mode is
    text: text that is not all digits means not mining, digits decide as in
    the Old dialect; a configuration mapping without a work mode gives
    [None], and no query is made in any of these cases. *)
Theorem modern_is_mining_table (self : miner) (h : handle) (conf : value) :
  (forall s,
     Py.getitem_key conf "bitmain-work-mode" = Ok (VStr s) ->
     Py.isdigit (VStr s) = Ok false ->
     AntminerModern._is_mining self conf h = (Ok (VBool false), h))
  /\ (forall s n,
        Py.getitem_key conf "bitmain-work-mode" = Ok (VStr s) ->
        Py.isdigit (VStr s) = Ok true ->
        int_of_str self s = Some n ->
        AntminerModern._is_mining self conf h = (Ok (VBool (negb (n =? 1))), h))
  /\ (forall d,
        conf = VDict d -> d <> [] -> dict_lookup d "bitmain-work-mode" = None ->
        AntminerModern._is_mining self conf h = (Ok VNone, h)).
Proof.
  repeat split.
  - intros s Hmode Hdig.
    pose proof (getitem_key_truthy _ _ _ Hmode) as Ht.
    unfold AntminerModern._is_mining.
    rewrite (fetch_truthy _ _ _ Ht), bind_ret, Ht.
    unfold bind, try_except, lift. rewrite Hmode, Hdig. reflexivity.
  - intros s n Hmode Hdig Hint.
    pose proof (getitem_key_truthy _ _ _ Hmode) as Ht.
    unfold AntminerModern._is_mining.
    rewrite (fetch_truthy _ _ _ Ht), bind_ret, Ht.
    unfold bind, try_except, lift. rewrite Hmode, Hdig.
    simpl. rewrite Hint. simpl. rewrite num_eq_int. reflexivity.
  - intros d -> Hd Hnone.
    pose proof (dict_truthy d Hd) as Ht.
    unfold AntminerModern._is_mining.
    rewrite (fetch_truthy _ _ _ Ht), bind_ret, Ht.
    unfold bind, try_except, lift. simpl. rewrite Hnone. reflexivity.
Qed.

Lemma modern_is_mining_table_witness :
  AntminerModern._is_mining (sample_miner offline)
    (VDict [("bitmain-work-mode", VStr "1")]) fresh_handle
  = (Ok (VBool false), fresh_handle)
  /\ AntminerModern._is_mining (sample_miner offline)
       (VDict [("bitmain-work-mode", VStr "auto")]) fresh_handle
     = (Ok (VBool false), fresh_handle).
Proof.
  split.
  - exact (proj1 (proj2 (modern_is_mining_table (sample_miner offline) fresh_handle
                           (VDict [("bitmain-work-mode", VStr "1")])))
             "1" 1 eq_refl eq_refl eq_refl).
  - exact (proj1 (modern_is_mining_table (sample_miner offline) fresh_handle
                    (VDict [("bitmain-work-mode", VStr "auto")]))
             "auto" eq_refl eq_refl).
Defined.

(** ** The fault light *)

Lemma answers_code_get (data : value) (code : string) :
  mapping_or_empty data -> Py.truthy data = true ->
  exists c, Py.get data "code" = Ok c /\ Py.eq_str c code = answers_code data code.
Proof.
  intros [Hf | [d ->]] Ht; [congruence|].
  unfold Py.get, Py.get_default, answers_code.
  destruct (dict_lookup d "code") as [c|]; eexists; split; reflexivity.
Qed.

(** Switching the Modern fault light off: the cached light becomes OFF
    exactly when the response carries the code "B100"; otherwise it keeps
    its value.  Either way the method returns the cached light and has
    issued the blink command once. *)
Theorem modern_fault_light_off (self : miner) (h : handle) (data : value) :
  tr self (calls h) (WebBlink false) = Some data ->
  mapping_or_empty data ->
  let l := if answers_code data "B100" then VBool false else light h in
  AntminerModern.fault_light_off self h
  = (Ok l, mkHandle l (calls h ++ [WebBlink false])).
Proof.
  intros Htr Hmap l. subst l.
  unfold AntminerModern.fault_light_off, bind, call. rewrite Htr.
  destruct (Py.truthy data) eqn:Ht.
  - destruct (answers_code_get data "B100" Hmap Ht) as (c & Hc & Heq).
    unfold lift. rewrite Hc, Heq.
    destruct (answers_code data "B100"); reflexivity.
  - assert (Hno : answers_code data "B100" = false).
    { destruct Hmap as [_ | [d ->]]; [|].
      - destruct data; try reflexivity. destruct d; [reflexivity | discriminate].
      - destruct d; [reflexivity | discriminate]. }
    rewrite Hno. destruct h; reflexivity.
Qed.

Lemma modern_fault_light_off_witness :
  AntminerModern.fault_light_off
    (sample_miner (answering (VDict [("code", VStr "B100")])))
    (mkHandle (VBool true) [])
  = (Ok (VBool false), mkHandle (VBool false) [WebBlink false]).
Proof.
  apply (modern_fault_light_off
           (sample_miner (answering (VDict [("code", VStr "B100")])))
           (mkHandle (VBool true) []) (VDict [("code", VStr "B100")]) eq_refl).
  right. exists [("code", VStr "B100")]. reflexivity.
Defined.

(** Switching the Modern fault light on and then off, both confirmed,
    leaves the cached light OFF with the two blink commands issued in that
    order, and the next FAULT_LIGHT read without a payload queries the
    blink status again. *)
Theorem modern_fault_light_round_trip (self : miner) (h : handle)
  (on_data off_data : value) :
  tr self (calls h) (WebBlink true) = Some on_data ->
  answers_code on_data "B000" = true ->
  tr self (calls h ++ [WebBlink true]) (WebBlink false) = Some off_data ->
  answers_code off_data "B100" = true ->
  let h2 := mkHandle (VBool false) (calls h ++ [WebBlink true; WebBlink false]) in
  (AntminerModern.fault_light_on self;;; AntminerModern.fault_light_off self) h
  = (Ok (VBool false), h2)
  /\ calls (snd (AntminerModern._get_fault_light self VNone h2))
     = calls h2 ++ [WebGetBlinkStatus].
Proof.
  intros Hon Con Hoff Coff h2.
  assert (Hd : forall data code, answers_code data code = true ->
                 exists d, data = VDict d
                           /\ exists c, dict_lookup d "code" = Some c
                                        /\ Py.eq_str c code = true).
  { intros data code H. destruct data; try discriminate. exists d.
    split; [reflexivity|]. simpl in H.
    destruct (dict_lookup d "code") as [c|]; [eauto | discriminate]. }
  destruct (Hd _ _ Con) as (d1 & -> & c1 & Hc1 & He1).
  destruct (Hd _ _ Coff) as (d2 & -> & c2 & Hc2 & He2).
  assert (Ht1 : Py.truthy (VDict d1) = true)
    by (destruct d1; [discriminate | reflexivity]).
  assert (Ht2 : Py.truthy (VDict d2) = true)
    by (destruct d2; [discriminate | reflexivity]).
  split.
  - unfold bind at 1.
    unfold AntminerModern.fault_light_on, bind, call. rewrite Hon, Ht1.
    unfold lift; simpl. rewrite Hc1; simpl. rewrite He1; simpl.
    unfold AntminerModern.fault_light_off, bind, call; simpl.
    rewrite Hoff, Ht2. unfold lift; simpl. rewrite Hc2; simpl. rewrite He2; simpl.
    unfold h2. rewrite <- app_assoc. reflexivity.
  - unfold AntminerModern._get_fault_light.
    unfold bind at 1, get_state at 1. simpl Py.truthy. cbv iota.
    refine (queries_once_bind WebGetBlinkStatus _ _ _ _ h2).
    + apply fetch_falsy_once; reflexivity.
    + intros status. silence.
Qed.

Lemma modern_fault_light_round_trip_witness :
  (AntminerModern.fault_light_on
     (sample_miner (fun _ c =>
        match c with
        | WebBlink true => Some (VDict [("code", VStr "B000")])
        | _ => Some (VDict [("code", VStr "B100")])
        end));;;
   AntminerModern.fault_light_off
     (sample_miner (fun _ c =>
        match c with
        | WebBlink true => Some (VDict [("code", VStr "B000")])
        | _ => Some (VDict [("code", VStr "B100")])
        end))) fresh_handle
  = (Ok (VBool false), mkHandle (VBool false) [WebBlink true; WebBlink false]).
Proof.
  exact (proj1 (modern_fault_light_round_trip
                  (sample_miner (fun _ c =>
                     match c with
                     | WebBlink true => Some (VDict [("code", VStr "B000")])
                     | _ => Some (VDict [("code", VStr "B100")])
                     end))
                  fresh_handle (VDict [("code", VStr "B000")])
                  (VDict [("code", VStr "B100")])
                  eq_refl eq_refl eq_refl eq_refl)).
Defined.

(** The Old toggles do not look at the answer of the blink command: they
    issue it, query the blink status once, and set the cached light from
    what the status reports.  Switching on sets ON when [isBlinking] is
    true, switching off sets OFF when it is false; a status that reports
    nothing leaves the light as it was.  When the blink command itself
    fails, the [APIError] escapes and no status query is made. *)
Theorem old_fault_light_toggles (self : miner) (h : handle) (on : bool) :
  (forall ack data,
     tr self (calls h) (WebBlink on) = Some ack ->
     tr self (calls h ++ [WebBlink on]) WebGetBlinkStatus = Some data ->
     mapping_or_empty data ->
     let l := match blink_state data with
              | Some b => if Bool.eqb (Py.truthy b) on then VBool on else light h
              | None => light h
              end in
     (if on then AntminerOld.fault_light_on self h
      else AntminerOld.fault_light_off self h)
     = (Ok l, mkHandle l (calls h ++ [WebBlink on; WebGetBlinkStatus])))
  /\ (tr self (calls h) (WebBlink on) = None ->
      (if on then AntminerOld.fault_light_on self h
       else AntminerOld.fault_light_off self h)
      = (Raise APIError, mkHandle (light h) (calls h ++ [WebBlink on]))).
Proof.
  split.
  - intros ack data Hack Hdata Hmap l. subst l.
    assert (Hlog : (calls h ++ [WebBlink on]) ++ [WebGetBlinkStatus]
                   = calls h ++ [WebBlink on; WebGetBlinkStatus])
      by (rewrite <- app_assoc; reflexivity).
    destruct on;
      [unfold AntminerOld.fault_light_on | unfold AntminerOld.fault_light_off];
      unfold bind at 1, call at 1; rewrite Hack;
      unfold bind at 1, try_except at 1, bind at 1, call at 1; simpl;
      rewrite Hdata, Hlog;
      (destruct Hmap as [Hf | [d ->]];
       [ rewrite Hf;
         assert (Hb : blink_state data = None)
           by (destruct data; try reflexivity;
               destruct d; [reflexivity | discriminate]);
         rewrite Hb; reflexivity
       | unfold blink_state;
         destruct (Py.truthy (VDict d)) eqn:Ht;
         [ unfold bind at 1, lift at 1; simpl;
           destruct (dict_lookup d "isBlinking") as [b|]; simpl;
           [destruct (Py.truthy b); reflexivity | reflexivity]
         | destruct d; [reflexivity | discriminate] ] ]).
  - intros Hfail.
    destruct on;
      [unfold AntminerOld.fault_light_on | unfold AntminerOld.fault_light_off];
      unfold bind at 1, call at 1; rewrite Hfail; reflexivity.
Qed.

Lemma old_fault_light_toggles_witness :
  AntminerOld.fault_light_on
    (sample_miner (answering (VDict [("isBlinking", VBool true)]))) fresh_handle
  = (Ok (VBool true),
     mkHandle (VBool true) [WebBlink true; WebGetBlinkStatus]).
Proof.
  apply (proj1 (old_fault_light_toggles
                  (sample_miner (answering (VDict [("isBlinking", VBool true)])))
                  fresh_handle true)
           (VDict [("isBlinking", VBool true)])
           (VDict [("isBlinking", VBool true)]) eq_refl eq_refl).
  right. exists [("isBlinking", VBool true)]. reflexivity.
Defined.

(** A FAULT_LIGHT read while the cached light is off adopts what a payload
    mapping reports under ["blink"] (Modern) or ["isBlinking"] (Old), as it
    is, and returns it; a mapping without the key leaves the light off. *)
Theorem fault_light_read_adopts (self : miner) (h : handle)
  (d : list (string * value)) :
  Py.truthy (light h) = false ->
  d <> [] ->
  AntminerModern._get_fault_light self (VDict d) h
  = match dict_lookup d "blink" with
    | Some b => (Ok b, mkHandle b (calls h))
    | None => (Ok (light h), h)
    end
  /\ AntminerOld._get_fault_light self (VDict d) h
     = match dict_lookup d "isBlinking" with
       | Some b => (Ok b, mkHandle b (calls h))
       | None => (Ok (light h), h)
       end.
Proof.
  intros Hoff Hd. pose proof (dict_truthy d Hd) as Ht.
  split.
  - unfold AntminerModern._get_fault_light.
    unfold bind at 1, get_state at 1. rewrite Hoff.
    rewrite (fetch_truthy _ _ _ Ht), bind_ret, Ht.
    unfold bind, try_except, lift, get_state; simpl.
    destruct (dict_lookup d "blink"); reflexivity.
  - unfold AntminerOld._get_fault_light.
    unfold bind at 1, get_state at 1. rewrite Hoff.
    rewrite (fetch_truthy _ _ _ Ht), bind_ret, Ht.
    unfold bind, try_except, lift, get_state; simpl.
    destruct (dict_lookup d "isBlinking"); reflexivity.
Qed.

Lemma fault_light_read_adopts_witness :
  AntminerModern._get_fault_light (sample_miner offline)
    (VDict [("blink", VBool true)]) fresh_handle
  = (Ok (VBool true), mkHandle (VBool true) []).
Proof.
  exact (proj1 (fault_light_read_adopts (sample_miner offline) fresh_handle
                  [("blink", VBool true)] eq_refl ltac:(discriminate))).
Defined.

(** ** Fans and boards of the Old dialect *)

(** Whenever the Old fan extraction returns, it returns exactly
    [expected_fans] fans. *)
Theorem old_fans_count (self : miner) (api_stats : value) (h h' : handle)
  (fans : list Fan) :
  AntminerOld._get_fans self api_stats h = (Ok fans, h') ->
  List.length fans = expected_fans self.
Proof.
  unfold AntminerOld._get_fans, bind.
  destruct (fetch_if_missing self api_stats RpcStats h) as [[stats|e] h1];
    [|discriminate].
  destruct (Py.truthy stats); [|intros [= <- _]; apply repeat_length].
  unfold with_local, try_except.
  assert (Hinv : List.length
                   (snd (AntminerOld.read_fans self stats
                           (repeat Fan_new (expected_fans self))))
                 = expected_fans self).
  { unfold AntminerOld.read_fans, bind at 1, lift at 1.
    destruct (AntminerOld.fan_offset stats) as [off|e]; simpl;
      [|apply repeat_length].
    apply for_each_inv; [|apply repeat_length].
    intros fan s _ Hs. unfold bind, lift.
    destruct (rbind (Py.getitem_key stats "STATS") _) as [v|e]; simpl;
      [rewrite list_update_length|]; exact Hs. }
  destruct (AntminerOld.read_fans self stats (repeat Fan_new (expected_fans self)))
    as [[[]|e] s]; simpl in Hinv.
  - intros [= <- _]. exact Hinv.
  - destruct (is_LookupError e); simpl; [|discriminate].
    intros [= <- _]. exact Hinv.
Qed.

Lemma old_fans_count_witness :
  List.length [mkFan (VInt 0); mkFan (VInt 0)]
  = expected_fans (sample_miner offline).
Proof.
  exact (old_fans_count (sample_miner offline) (flat_payload low_fans)
           fresh_handle fresh_handle [mkFan (VInt 0); mkFan (VInt 0)] eq_refl).
Defined.

(** A stats mapping without ["STATS"], or with a ["STATS"] list of fewer
    than two entries, makes the first probe of the fan scan fail with a
    lookup error: the Old fan extraction then returns its untouched
    defaults, every speed 0. *)
Theorem old_fans_default_on_short_payload (self : miner) (h : handle)
  (stats : value) :
  Py.truthy stats = true ->
  (exists d, stats = VDict d /\ dict_lookup d "STATS" = None)
  \/ (exists l, Py.getitem_key stats "STATS" = Ok (VList l)
                /\ (List.length l <= 1)%nat) ->
  AntminerOld._get_fans self stats h = (Ok (repeat Fan_new (expected_fans self)), h).
Proof.
  intros Ht Hshape.
  assert (Hprobe : exists e, AntminerOld.fan_probe stats 1 = Raise e
                             /\ is_LookupError e = true).
  { unfold AntminerOld.fan_probe.
    destruct Hshape as [(d & -> & Hd) | (l & Hs & Hl)].
    - exists KeyError. simpl. rewrite Hd. auto.
    - exists IndexError. rewrite Hs. simpl. unfold Py.norm_index.
      replace (1 <? Z.of_nat (List.length l)) with false
        by (symmetry; apply Z.ltb_ge; lia).
      simpl.
      replace (- Z.of_nat (List.length l) <=? 1) with true
        by (symmetry; apply Z.leb_le; lia).
      auto. }
  destruct Hprobe as (e & Hprobe & Hlook).
  assert (Hoff : AntminerOld.fan_offset stats = Raise e).
  { unfold AntminerOld.fan_offset, exec, scan. simpl.
    unfold bind at 1, bind at 1, bind at 1, bind at 1, lift at 1.
    rewrite Hprobe. reflexivity. }
  unfold AntminerOld._get_fans.
  rewrite (fetch_truthy _ _ _ Ht), bind_ret. simpl. rewrite Ht.
  unfold with_local, try_except, AntminerOld.read_fans, bind at 1, lift at 1.
  rewrite Hoff, Hlook. reflexivity.
Qed.

Lemma old_fans_default_on_short_payload_witness :
  AntminerOld._get_fans (sample_miner offline)
    (VDict [("STATS", VList [VDict [("fan1", VInt 6000)]])]) fresh_handle
  = (Ok [mkFan (VInt 0); mkFan (VInt 0)], fresh_handle).
Proof.
  apply (old_fans_default_on_short_payload (sample_miner offline) fresh_handle
           (VDict [("STATS", VList [VDict [("fan1", VInt 6000)]])]) eq_refl).
  right. exists [VDict [("fan1", VInt 6000)]]. split; [reflexivity | simpl; lia].
Defined.

(** A board of the Old dialect, built from the flat mapping [d] at raw
    suffix [i], is non-missing exactly when the chip count stored at that
    suffix is a positive number; it carries that count when the count is
    not empty, and the expected chip count of the miner. *)
Theorem old_board_presence (self : miner) (boards : value)
  (d : list (string * value)) (off i : Z) (hb : HashBoard) :
  Py.getitem_idx boards 1 = Ok (VDict d) ->
  AntminerOld.build_board self boards off i = Ok hb ->
  let c := reading d "chain_acn" i in
  (missing hb = false <-> Py.truthy c = true /\ Py.gt_zero c = Ok true)
  /\ chips hb = (if Py.truthy c then c else chips_default self)
  /\ expected_chips hb = expected_chips_of self.
Proof.
  intros Hd Hb c. subst c.
  unfold AntminerOld.build_board in Hb.
  rewrite !(field_reading _ _ _ _ Hd) in Hb. simpl in Hb.
  invert_rbind; subst;
    repeat match goal with
      | |- context [if ?b then _ else _] => destruct b eqn:?
      end;
    simpl;
    repeat match goal with
      | H : negb ?b = false |- _ => apply negb_false_iff in H
      | H : negb ?b = true |- _ => apply negb_true_iff in H
      | H : Py.gt_zero _ = Ok _ |- _ => rewrite H
      end;
    try congruence;
    (split; [split; [intros; try discriminate; split; congruence
                    | intros [? ?]; congruence]
            | split; reflexivity]).
Qed.

Lemma old_board_presence_witness :
  (missing (mkHashBoard 0 (VFloat (9 # 2)) (VInt 70) (VInt 60) (VInt 63)
              (VInt 80) VNone false) = false
   <-> Py.truthy (reading group11 "chain_acn" 11) = true
       /\ Py.gt_zero (reading group11 "chain_acn" 11) = Ok true).
Proof.
  exact (proj1 (old_board_presence (sample_miner offline)
                  (VList [VDict []; VDict group11]) group11 11 11
                  (mkHashBoard 0 (VFloat (9 # 2)) (VInt 70) (VInt 60) (VInt 63)
                     (VInt 80) VNone false)
                  eq_refl eq_refl)).
Defined.

(** ** The resolved offsets stay within the candidates *)

Lemma scan_range (cands : list Z) (width : nat) (probe : Z -> res value)
  (accept : Z -> Z) (s : Z) :
  s = -1 \/ In s (map accept cands) ->
  let s' := snd (scan cands width probe accept s) in
  s' = -1 \/ In s' (map accept cands).
Proof.
  intros Hs. unfold scan.
  apply (for_each_inv (fun s => s = -1 \/ In s (map accept cands))); [|exact Hs].
  intros c s0 Hc Hs0.
  apply (for_each_inv (fun s => s = -1 \/ In s (map accept cands))); [|exact Hs0].
  intros k s1 _ Hs1. unfold bind, lift, get_state.
  destruct (probe (c + k)) as [v|e]; simpl; [|exact Hs1].
  destruct (Py.truthy v && negb (Py.eq_zero v) && (s1 =? -1)); simpl;
    [|exact Hs1].
  right. apply in_map. exact Hc.
Qed.

(** Whenever the scans return, the board offset is 1, 6 or 11 and the fan
    offset is 3 or 7, whatever the mapping holds. *)
Theorem resolved_offsets_bounded (boards api_stats : value) (off : Z) :
  (AntminerOld.board_offset boards = Ok off -> off = 1 \/ off = 6 \/ off = 11)
  /\ (AntminerOld.fan_offset api_stats = Ok off -> off = 3 \/ off = 7).
Proof.
  split.
  - unfold AntminerOld.board_offset, exec, bind at 1.
    pose proof (scan_range (range_step 1 16 5) 5 (AntminerOld.board_probe boards)
                  (fun c => c) (-1) (or_introl eq_refl)) as Hscan.
    destruct (scan (range_step 1 16 5) 5 (AntminerOld.board_probe boards)
                (fun c => c) (-1)) as [[[]|e] s]; [|discriminate].
    simpl in Hscan. unfold or_default, bind, get_state.
    destruct (s =? -1) eqn:Es; simpl; intros [= <-]; [auto|].
    apply Z.eqb_neq in Es.
    destruct Hscan as [?|[?|[?|[?|[]]]]]; subst; auto; contradiction.
  - unfold AntminerOld.fan_offset, exec, bind at 1.
    pose proof (scan_range (range_step 1 8 4) 4 (AntminerOld.fan_probe api_stats)
                  (fun c => c + 2) (-1) (or_introl eq_refl)) as Hscan.
    destruct (scan (range_step 1 8 4) 4 (AntminerOld.fan_probe api_stats)
                (fun c => c + 2) (-1)) as [[[]|e] s]; [|discriminate].
    simpl in Hscan. unfold or_default, bind, get_state.
    destruct (s =? -1) eqn:Es; simpl; intros [= <-]; [auto|].
    apply Z.eqb_neq in Es.
    destruct Hscan as [?|[?|[?|[]]]]; subst; auto; contradiction.
Qed.

Lemma resolved_offsets_bounded_witness :
  (11 = 1 \/ 11 = 6 \/ 11 = 11).
Proof.
  exact (proj1 (resolved_offsets_bounded (VList [VDict []; VDict group11])
                  VNone 11) eq_refl).
Defined.

(** ** The Modern board loop *)

Lemma for_each_app {St A} (l1 l2 : list A) (body : A -> M St unit) (s : St) :
  for_each (l1 ++ l2) body s
  = match for_each l1 body s with
    | (Ok _, s1) => for_each l2 body s1
    | (Raise e, s1) => (Raise e, s1)
    end.
Proof.
  revert s; induction l1 as [|x l1 IH]; intros s; simpl; [reflexivity|].
  unfold bind. destruct (body x s) as [[[]|e] s0]; [apply IH | reflexivity].
Qed.

(** The Modern board loop stops at the first record that raises: when the
    records before it were processed and it raises a lookup error, the
    extraction returns the boards as that record left them, whatever
    records follow it. *)
Theorem modern_loop_stops_at_failing_record (self : miner) (h : handle)
  (api_stats : value) (before after : list value) (bad : value)
  (s1 s2 : list HashBoard) (e : exn) :
  tr self (calls h) RpcStatsNew = Some api_stats ->
  chain_records api_stats = Ok (before ++ bad :: after) ->
  for_each before AntminerModern.board_step (AntminerModern.fresh_boards self)
    = (Ok tt, s1) ->
  AntminerModern.board_step bad s1 = (Raise e, s2) ->
  is_LookupError e = true ->
  fst (AntminerModern._get_hashboards self h) = Ok s2.
Proof.
  intros Htr Hchain Hbefore Hbad Hlook.
  assert (Ht : Py.truthy api_stats = true).
  { unfold chain_records in Hchain.
    destruct (Py.getitem_key api_stats "STATS") as [s|e'] eqn:E; [|discriminate].
    eapply getitem_key_truthy; exact E. }
  unfold AntminerModern._get_hashboards.
  unfold bind at 1, try_except at 1, bind at 1, call at 1.
  rewrite Htr. simpl. rewrite Ht.
  unfold with_local, try_except, AntminerModern.read_chains.
  change (rbind (Py.getitem_key api_stats "STATS") _)
    with (chain_records api_stats).
  unfold bind at 1, lift at 1. rewrite Hchain.
  rewrite for_each_app, Hbefore. simpl.
  unfold bind at 1. rewrite Hbad, Hlook. reflexivity.
Qed.

Lemma modern_loop_stops_at_failing_record_witness :
  fst (AntminerModern._get_hashboards
         (sample_miner (answering (chain_payload [no_sn_record; scenario_record])))
         fresh_handle)
  = Ok [mkHashBoard 0 (VFloat 15) (VFloat 56) (VFloat (141 # 2)) (VInt 80)
          (VInt 80) VNone true;
        HashBoard_new VNone 1 (VInt 80);
        HashBoard_new VNone 2 (VInt 80)].
Proof.
  exact (modern_loop_stops_at_failing_record
           (sample_miner (answering (chain_payload [no_sn_record; scenario_record])))
           fresh_handle (chain_payload [no_sn_record; scenario_record])
           [] [scenario_record] no_sn_record
           (AntminerModern.fresh_boards (sample_miner offline))
           [mkHashBoard 0 (VFloat 15) (VFloat 56) (VFloat (141 # 2)) (VInt 80)
              (VInt 80) VNone true;
            HashBoard_new VNone 1 (VInt 80);
            HashBoard_new VNone 2 (VInt 80)]
           KeyError eq_refl eq_refl eq_refl eq_refl eq_refl).
Defined.

(** A chain record whose board index cannot be resolved (no ["index"], an
    index that is not an integer, or one outside [-len, len)) writes
    nothing: the loop body raises and the boards are as before.  An index
    in [-len, 0) is resolved from the end. *)
Theorem unresolved_index_writes_nothing (board : value) (hbs : list HashBoard) :
  (forall e, slot_of board (List.length hbs) = Raise e ->
     exists e', AntminerModern.board_step board hbs = (Raise e', hbs))
  /\ (forall i, Py.getitem_key board "index" = Ok (VInt i) ->
        - Z.of_nat (List.length hbs) <= i < 0 ->
        slot_of board (List.length hbs)
        = Ok (Z.to_nat (Z.of_nat (List.length hbs) + i))).
Proof.
  split.
  - intros e Hslot. unfold AntminerModern.board_step.
    unfold bind at 1, lift at 1.
    destruct (rbind (Py.getitem_key board "rate_real") _) as [rate|e0];
      [|eauto].
    unfold bind at 1. rewrite assign_slot_of, Hslot. eauto.
  - intros i Hidx Hi. unfold slot_of. rewrite Hidx. simpl.
    unfold list_index, Py.norm_index. simpl.
    replace (0 <=? i) with false by (symmetry; apply Z.leb_gt; lia).
    simpl.
    replace (i <? 0) with true by (symmetry; apply Z.ltb_lt; lia).
    replace (- Z.of_nat (List.length hbs) <=? i) with true
      by (symmetry; apply Z.leb_le; lia).
    reflexivity.
Qed.

Lemma unresolved_index_writes_nothing_witness :
  exists e',
    AntminerModern.board_step
      (VDict [("index", VInt 3); ("rate_real", VInt 15000)])
      (AntminerModern.fresh_boards (sample_miner offline))
    = (Raise e', AntminerModern.fresh_boards (sample_miner offline)).
Proof.
  exact (proj1 (unresolved_index_writes_nothing
                  (VDict [("index", VInt 3); ("rate_real", VInt 15000)])
                  (AntminerModern.fresh_boards (sample_miner offline)))
           IndexError eq_refl).
Defined.

Lemma keeps_ret {A B} (g : HashBoard -> B) (a : A) : keeps g (ret a).
Proof. intros s; reflexivity. Qed.

Lemma keeps_lift {A B} (g : HashBoard -> B) (r : res A) : keeps g (lift r).
Proof. intros s; reflexivity. Qed.

Lemma keeps_bind {A A' B} (g : HashBoard -> B) (m : M (list HashBoard) A)
  (f : A -> M (list HashBoard) A') :
  keeps g m -> (forall a, keeps g (f a)) -> keeps g (bind m f).
Proof.
  intros Hm Hf s. unfold bind. specialize (Hm s).
  destruct (m s) as [[a|e] s1]; simpl in *; [|exact Hm].
  rewrite (Hf a s1). exact Hm.
Qed.

Lemma keeps_assign {B} (g : HashBoard -> B) (board : value)
  (f : HashBoard -> HashBoard) :
  (forall hb, g (f hb) = g hb) -> keeps g (AntminerModern.assign board f).
Proof.
  intros Hg s. rewrite assign_slot_of.
  destruct (slot_of board (List.length s)) as [n|e]; simpl; [|reflexivity].
  rewrite (map_list_update g f (fun b => b)) by exact Hg.
  apply list_update_id.
Qed.

Lemma keeps_for_each {A B} (g : HashBoard -> B) (l : list A)
  (body : A -> M (list HashBoard) unit) :
  (forall x, keeps g (body x)) -> keeps g (for_each l body).
Proof.
  intros Hbody. induction l as [|x l IH]; [apply keeps_ret|].
  simpl. apply keeps_bind; [apply Hbody | intros _; exact IH].
Qed.

(** The loop body never touches a board's slot or expected chip count. *)
Lemma board_step_keeps {B} (g : HashBoard -> B) (board : value) :
  (forall v hb, g (set_hashrate v hb) = g hb) ->
  (forall v hb, g (set_chips v hb) = g hb) ->
  (forall v hb, g (set_temp v hb) = g hb) ->
  (forall v hb, g (set_chip_temp v hb) = g hb) ->
  (forall v hb, g (set_serial_number v hb) = g hb) ->
  (forall b hb, g (set_missing b hb) = g hb) ->
  keeps g (AntminerModern.board_step board).
Proof.
  intros H1 H2 H3 H4 H5 H6. unfold AntminerModern.board_step.
  repeat first
    [ apply keeps_lift
    | apply keeps_assign; intros; auto
    | apply keeps_bind; [|intros ?] ].
Qed.

(** Whenever the Modern extraction returns, the board at position [i] has
    slot [i], and every board carries the miner's expected chip count,
    whatever indices the chain records named. *)
Theorem modern_boards_keep_identity (self : miner) (h h' : handle)
  (hbs : list HashBoard) :
  AntminerModern._get_hashboards self h = (Ok hbs, h') ->
  map slot hbs = range (expected_hashboards self)
  /\ map expected_chips hbs
     = repeat (expected_chips_of self) (expected_hashboards self).
Proof.
  intros Hget.
  assert (Hfresh : map slot (AntminerModern.fresh_boards self)
                   = range (expected_hashboards self)
                   /\ map expected_chips (AntminerModern.fresh_boards self)
                      = repeat (expected_chips_of self) (expected_hashboards self)).
  { unfold AntminerModern.fresh_boards. rewrite !map_map. simpl. split.
    - apply map_id.
    - unfold range. generalize 0%nat.
      induction (expected_hashboards self) as [|n IH]; intros a; simpl;
        [reflexivity | rewrite IH; reflexivity]. }
  apply modern_get_hashboards_inv in Hget as [-> | (api_stats & _ & ->)];
    [exact Hfresh|].
  assert (Hkeeps : forall {B} (g : HashBoard -> B),
             (forall v hb, g (set_hashrate v hb) = g hb) ->
             (forall v hb, g (set_chips v hb) = g hb) ->
             (forall v hb, g (set_temp v hb) = g hb) ->
             (forall v hb, g (set_chip_temp v hb) = g hb) ->
             (forall v hb, g (set_serial_number v hb) = g hb) ->
             (forall b hb, g (set_missing b hb) = g hb) ->
             keeps g (AntminerModern.read_chains api_stats)).
  { intros B g H1 H2 H3 H4 H5 H6. unfold AntminerModern.read_chains.
    apply keeps_bind; [apply keeps_lift | intros chain].
    apply keeps_for_each. intros board. apply board_step_keeps; assumption. }
  split.
  - rewrite (Hkeeps _ slot) by reflexivity. apply Hfresh.
  - rewrite (Hkeeps _ expected_chips) by reflexivity. apply Hfresh.
Qed.

Lemma modern_boards_keep_identity_witness :
  map slot [mkHashBoard 0 (VFloat 15) (VFloat 56) (VFloat (141 # 2)) (VInt 80)
              (VInt 80) (VStr "ABC123") false;
            HashBoard_new VNone 1 (VInt 80);
            HashBoard_new VNone 2 (VInt 80)]
  = range 3.
Proof.
  exact (proj1 (modern_boards_keep_identity
                  (sample_miner (answering (chain_payload [scenario_record])))
                  fresh_handle (mkHandle (VBool false) [RpcStatsNew]) _ eq_refl)).
Defined.

(** ** Averaging the temperature readings *)

(** A zero reading, wherever it stands in the array, does not change the
    average the board loop stores. *)
Theorem zero_reading_ignored (l1 l2 : list value) (z : value) :
  Py.eq_zero z = true ->
  AntminerModern.nonzero_readings (VList (l1 ++ z :: l2))
  = AntminerModern.nonzero_readings (VList (l1 ++ l2))
  /\ average (VList (l1 ++ z :: l2)) = average (VList (l1 ++ l2)).
Proof.
  intros Hz.
  assert (H : AntminerModern.nonzero_readings (VList (l1 ++ z :: l2))
              = AntminerModern.nonzero_readings (VList (l1 ++ l2))).
  { unfold AntminerModern.nonzero_readings. simpl.
    rewrite !filter_app. simpl. rewrite Hz. reflexivity. }
  split; [exact H|]. unfold average. rewrite H. reflexivity.
Qed.

Lemma zero_reading_ignored_witness :
  average (VList ([VInt 0; VInt 60] ++ VInt 0 :: [VInt 62]))
  = average (VList ([VInt 0; VInt 60] ++ [VInt 62])).
Proof.
  exact (proj2 (zero_reading_ignored [VInt 0; VInt 60] [VInt 62] (VInt 0) eq_refl)).
Defined.

Lemma zero_or_not (l : list value) :
  Forall (fun x => Py.eq_zero x = true) l
  \/ Exists (fun x => Py.eq_zero x = false) l.
Proof.
  induction l as [|x l [IH|IH]].
  - left; constructor.
  - destruct (Py.eq_zero x) eqn:E.
    + left; constructor; assumption.
    + right; apply Exists_cons_hd; exact E.
  - right; apply Exists_cons_tl; exact IH.
Qed.

(** On an array of numbers the average raises [ZeroDivisionError] exactly
    when every reading is zero (the empty array included).  With a
    non-zero reading it is a float or raises [OverflowError], which needs
    an integer out of float range: it is a float when the readings are in
    range, and [sum([2**1024]) / 1] overflows. *)
Theorem average_fails_iff_all_zero (l : list value) :
  Forall (fun x => numeric x = true) l ->
  (average (VList l) = Raise ZeroDivisionError
   <-> Forall (fun x => Py.eq_zero x = true) l)
  /\ (Exists (fun x => Py.eq_zero x = false) l ->
      (exists q, average (VList l) = Ok (VFloat q))
      \/ average (VList l) = Raise OverflowError)
  /\ (temps_ok (VList l) -> exists q, average (VList l) = Ok (VFloat q))
  /\ average (VList [VInt (2 ^ 1024)]) = Raise OverflowError.
Proof.
  intros Hnum.
  set (data := filter (fun x => negb (Py.eq_zero x)) l).
  assert (Havg : average (VList l) = AntminerModern.mean data) by reflexivity.
  assert (Hdata : Forall (fun x => numeric x = true) data).
  { apply Forall_forall. intros x Hx. apply filter_In in Hx as [Hx _].
    rewrite Forall_forall in Hnum. apply Hnum; exact Hx. }
  assert (Hex : Exists (fun x => Py.eq_zero x = false) l ->
                (exists q, average (VList l) = Ok (VFloat q))
                \/ average (VList l) = Raise OverflowError).
  { intros Hnz. rewrite Havg. unfold AntminerModern.mean, Py.sum.
    assert (Hlen : Z.of_nat (List.length data) <> 0).
    { apply Exists_exists in Hnz as (x & Hx & Hzero).
      assert (Hin : In x data)
        by (apply filter_In; split; [exact Hx | rewrite Hzero; reflexivity]).
      destruct data; [contradiction | simpl; lia]. }
    destruct (sum_from_numeric data Hdata (VInt 0) eq_refl)
      as [(s & -> & Hs) | ->]; [|right; reflexivity].
    exact (truediv_numeric s _ Hs Hlen). }
  split; [|split; [exact Hex | split]].
  - split.
    + intros Hraise. destruct (zero_or_not l) as [Hall | Hnz]; [exact Hall|].
      destruct (Hex Hnz) as [[q Hq] | Hq]; congruence.
    + intros Hall. rewrite Havg.
      assert (Hnil : data = []).
      { subst data. clear Hnum Hdata Hex Havg.
        induction Hall as [|x l Hx _ IH]; simpl;
          [reflexivity | rewrite Hx; exact IH]. }
      rewrite Hnil. reflexivity.
  - intros Hok.
    destruct (temps_ok_mean (VList l) Hok) as (data' & q & Hd & Hmean).
    exists q. unfold average. rewrite Hd. exact Hmean.
  - vm_compute. reflexivity.
Qed.

Lemma average_fails_iff_all_zero_witness :
  exists q, average (VList [VInt 0; VInt 60; VInt 62; VInt 0]) = Ok (VFloat q).
Proof.
  apply (proj1 (proj2 (proj2
           (average_fails_iff_all_zero [VInt 0; VInt 60; VInt 62; VInt 0]
              ltac:(repeat constructor))))).
  exists [VInt 0; VInt 60; VInt 62; VInt 0].
  split; [reflexivity|].
  split; [vm_compute; reflexivity|].
  split; [repeat constructor|].
  apply Exists_cons_tl, Exists_cons_hd. reflexivity.
Defined.

(** ** What a processed record writes *)

Lemma list_update_twice {A} (n : nat) (f g : A -> A) (l : list A) :
  list_update n f (list_update n g l) = list_update n (fun x => f (g x)) l.
Proof.
  revert n; induction l as [|x l IH]; intros [|n]; simpl; rewrite ?IH; reflexivity.
Qed.

Lemma list_update_ext {A} (n : nat) (f g : A -> A) (l : list A) :
  (forall x, f x = g x) -> list_update n f l = list_update n g l.
Proof.
  intros H. revert n; induction l as [|x l IH]; intros [|n]; simpl;
    rewrite ?H, ?IH; reflexivity.
Qed.

Lemma assign_Ok (board : value) (f : HashBoard -> HashBoard)
  (hbs hbs' : list HashBoard) :
  AntminerModern.assign board f hbs = (Ok tt, hbs') ->
  exists n, slot_of board (List.length hbs) = Ok n /\ hbs' = list_update n f hbs.
Proof.
  rewrite assign_slot_of.
  destruct (slot_of board (List.length hbs)) as [n|e]; [|discriminate].
  intros [= <-]. eauto.
Qed.

(** When the loop body completes on a chain record, exactly one board
    changed, the one at the record's slot, and it now holds: the rate
    divided by 1000 and rounded to two decimals, the chip count, the
    averages of the two temperature arrays, the serial number, and
    [missing = false]; its slot and expected chip count are as before. *)
Theorem processed_record_fields (board : value) (hbs hbs' : list HashBoard) :
  AntminerModern.board_step board hbs = (Ok tt, hbs') ->
  exists n rate c t ct sn,
    slot_of board (List.length hbs) = Ok n
    /\ (r <<- Py.getitem_key board "rate_real";;
        q <<- Py.truediv r (VInt 1000);;
        Py.round2 q) = Ok rate
    /\ Py.getitem_key board "asic_num" = Ok c
    /\ (v <<- Py.getitem_key board "temp_pcb";; average v) = Ok t
    /\ (v <<- Py.getitem_key board "temp_chip";; average v) = Ok ct
    /\ Py.getitem_key board "sn" = Ok sn
    /\ hbs' = list_update n
                (fun hb => mkHashBoard (slot hb) rate t ct c (expected_chips hb)
                             sn false)
                hbs.
Proof.
  unfold AntminerModern.board_step.
  unfold bind at 1, lift at 1.
  destruct (rbind (Py.getitem_key board "rate_real") _) as [rate|e] eqn:Erate;
    [|discriminate].
  unfold bind at 1.
  destruct (AntminerModern.assign board (set_hashrate rate) hbs)
    as [[[]|e] s1] eqn:E1; [|discriminate].
  apply assign_Ok in E1 as (n & Hn & ->).
  unfold bind at 1, lift at 1.
  destruct (Py.getitem_key board "asic_num") as [c|e] eqn:Ec; [|discriminate].
  unfold bind at 1.
  rewrite assign_slot_of, list_update_length, Hn.
  unfold bind at 1, lift at 1.
  destruct (rbind (Py.getitem_key board "temp_pcb") _) as [pcb|e] eqn:Epcb;
    [|discriminate].
  unfold bind at 1, lift at 1.
  destruct (AntminerModern.mean pcb) as [t|e] eqn:Et; [|discriminate].
  unfold bind at 1.
  rewrite assign_slot_of, !list_update_length, Hn.
  unfold bind at 1, lift at 1.
  destruct (rbind (Py.getitem_key board "temp_chip") _) as [chip|e] eqn:Echip;
    [|discriminate].
  unfold bind at 1, lift at 1.
  destruct (AntminerModern.mean chip) as [ct|e] eqn:Ect; [|discriminate].
  unfold bind at 1.
  rewrite assign_slot_of, !list_update_length, Hn.
  unfold bind at 1, lift at 1.
  destruct (Py.getitem_key board "sn") as [sn|e] eqn:Esn; [|discriminate].
  unfold bind at 1.
  rewrite assign_slot_of, !list_update_length, Hn.
  rewrite assign_slot_of, !list_update_length, Hn.
  intros [= <-].
  exists n, rate, c, t, ct, sn.
  repeat split; try reflexivity.
  - unfold average.
    destruct (Py.getitem_key board "temp_pcb") as [v|e]; simpl in *;
      [|discriminate].
    rewrite Epcb. simpl. exact Et.
  - unfold average.
    destruct (Py.getitem_key board "temp_chip") as [v|e]; simpl in *;
      [|discriminate].
    rewrite Echip. simpl. exact Ect.
  - rewrite !list_update_twice. apply list_update_ext.
    intros hb. reflexivity.
Qed.

Lemma processed_record_fields_witness :
  exists n rate c t ct sn,
    slot_of scenario_record 3 = Ok n
    /\ (r <<- Py.getitem_key scenario_record "rate_real";;
        q <<- Py.truediv r (VInt 1000);;
        Py.round2 q) = Ok rate
    /\ Py.getitem_key scenario_record "asic_num" = Ok c
    /\ (v <<- Py.getitem_key scenario_record "temp_pcb";; average v) = Ok t
    /\ (v <<- Py.getitem_key scenario_record "temp_chip";; average v) = Ok ct
    /\ Py.getitem_key scenario_record "sn" = Ok sn
    /\ [mkHashBoard 0 (VFloat 15) (VFloat 56) (VFloat (141 # 2)) (VInt 80)
          (VInt 80) (VStr "ABC123") false;
        HashBoard_new VNone 1 (VInt 80);
        HashBoard_new VNone 2 (VInt 80)]
       = list_update n
           (fun hb => mkHashBoard (slot hb) rate t ct c (expected_chips hb)
                        sn false)
           (AntminerModern.fresh_boards (sample_miner offline)).
Proof.
  exact (processed_record_fields scenario_record
           (AntminerModern.fresh_boards (sample_miner offline)) _ eq_refl).
Defined.

(** ** Errors of the Modern dialect *)

Lemma error_of_item_mapping {E} (X19Error : value -> E)
  (d : list (string * value)) (errors : list E) :
  AntminerModern.error_of_item X19Error (VDict d) errors
  = (Ok tt,
     match reported_error (VDict d) with
     | Some msg => errors ++ [X19Error msg]
     | None => errors
     end).
Proof.
  unfold AntminerModern.error_of_item, try_except, bind, lift. simpl.
  destruct (dict_lookup d "status") as [st|]; simpl; [|reflexivity].
  destruct (Py.eq_str st "s"); simpl; [reflexivity|].
  destruct (dict_lookup d "msg"); reflexivity.
Qed.

Lemma errors_loop {E} (X19Error : value -> E) (items : list value) :
  forallb is_mapping items = true ->
  forall errors,
    for_each items (AntminerModern.error_of_item X19Error) errors
    = (Ok tt, errors ++ map X19Error (reported_errors items)).
Proof.
  induction items as [|item items IH]; intros Hmap errors; simpl.
  - rewrite app_nil_r. reflexivity.
  - simpl in Hmap. apply andb_prop in Hmap as [Hitem Hrest].
    destruct item; try discriminate.
    unfold bind at 1. rewrite error_of_item_mapping.
    rewrite (IH Hrest).
    destruct (reported_error (VDict d)) as [msg|]; simpl; [|reflexivity].
    rewrite <- app_assoc. reflexivity.
Qed.

(** With a summary payload whose status list holds mappings, the errors
    returned are, in the order of the list, the messages of the items whose
    status is not "s"; an item without a status, or without a message, is
    skipped.  No query is made.  A payload mapping without ["SUMMARY"]
    gives no errors. *)
Theorem errors_reported {E : Type} (X19Error : value -> E)
  (summary : M handle value) (h : handle) (web_summary : value) :
  (forall s s0 items,
     Py.getitem_key web_summary "SUMMARY" = Ok s ->
     Py.getitem_idx s 0 = Ok s0 ->
     Py.getitem_key s0 "status" = Ok (VList items) ->
     forallb is_mapping items = true ->
     AntminerModern._get_errors X19Error summary web_summary h
     = (Ok (map X19Error (reported_errors items)), h))
  /\ (forall d,
        web_summary = VDict d -> d <> [] -> dict_lookup d "SUMMARY" = None ->
        AntminerModern._get_errors X19Error summary web_summary h = (Ok [], h)).
Proof.
  split.
  - intros s s0 items Hs H0 Hst Hmap.
    pose proof (getitem_key_truthy _ _ _ Hs) as Ht.
    unfold AntminerModern._get_errors. rewrite Ht. simpl negb. cbv iota.
    rewrite bind_ret, Ht.
    unfold with_local, try_except, bind at 1, lift at 1.
    rewrite Hs; simpl. rewrite H0; simpl. rewrite Hst; simpl.
    rewrite (errors_loop X19Error items Hmap []). reflexivity.
  - intros d -> Hd Hnone. pose proof (dict_truthy d Hd) as Ht.
    unfold AntminerModern._get_errors. rewrite Ht. simpl negb. cbv iota.
    rewrite bind_ret, Ht.
    unfold with_local, try_except, bind at 1, lift at 1. simpl.
    rewrite Hnone. reflexivity.
Qed.

Lemma errors_reported_witness :
  AntminerModern._get_errors (fun msg => msg) (ret VNone) sample_summary
    fresh_handle
  = (Ok [VStr "fan lost"], fresh_handle).
Proof.
  exact (proj1 (errors_reported (fun msg => msg) (ret VNone) fresh_handle
                  sample_summary)
           (VList [VDict [("status", VList sample_status)]])
           (VDict [("status", VList sample_status)]) sample_status
           eq_refl eq_refl eq_refl eq_refl).
Defined.

(** ** Renaming the miner *)

(** [set_hostname] reads the network information once and sends back the
    DNS servers, gateway, address and netmask it read, with the new
    hostname, and protocol 1 when the network type is "DHCP", 2 otherwise.
    When the network information is a mapping that lacks one of the five
    keys, it raises [KeyError] after that query and sends nothing. *)
Theorem set_hostname_resends_settings (self : miner)
  (set_network_conf : value -> value -> value -> value -> value -> Z -> M handle value)
  (hostname : value) (h : handle) (d : list (string * value)) :
  tr self (calls h) WebGetNetworkInfo = Some (VDict d) ->
  let h1 := mkHandle (light h) (calls h ++ [WebGetNetworkInfo]) in
  (forall dns gateway ip subnet_mask nettype,
     dict_lookup d "conf_dnsservers" = Some dns ->
     dict_lookup d "conf_gateway" = Some gateway ->
     dict_lookup d "conf_ipaddress" = Some ip ->
     dict_lookup d "conf_netmask" = Some subnet_mask ->
     dict_lookup d "conf_nettype" = Some nettype ->
     AntminerModern.set_hostname self set_network_conf hostname h
     = (set_network_conf ip dns gateway subnet_mask hostname
          (if Py.eq_str nettype "DHCP" then 1 else 2);;; ret tt) h1)
  /\ (forall k, In k network_keys -> dict_lookup d k = None ->
        AntminerModern.set_hostname self set_network_conf hostname h
        = (Raise KeyError, h1)).
Proof.
  intros Htr h1.
  assert (Hstart : AntminerModern.set_hostname self set_network_conf hostname h
                   = (dns <- lift (Py.getitem_key (VDict d) "conf_dnsservers");;
                      gateway <- lift (Py.getitem_key (VDict d) "conf_gateway");;
                      ip <- lift (Py.getitem_key (VDict d) "conf_ipaddress");;
                      subnet_mask <- lift (Py.getitem_key (VDict d) "conf_netmask");;
                      nettype <- lift (Py.getitem_key (VDict d) "conf_nettype");;
                      set_network_conf ip dns gateway subnet_mask hostname
                        (if Py.eq_str nettype "DHCP" then 1 else 2);;;
                      ret tt) h1).
  { unfold AntminerModern.set_hostname. unfold bind at 1, call at 1.
    rewrite Htr. reflexivity. }
  rewrite Hstart. split.
  - intros dns gateway ip subnet_mask nettype H1 H2 H3 H4 H5.
    unfold bind at 1, lift at 1. simpl. rewrite H1.
    unfold bind at 1, lift at 1. simpl. rewrite H2.
    unfold bind at 1, lift at 1. simpl. rewrite H3.
    unfold bind at 1, lift at 1. simpl. rewrite H4.
    unfold bind at 1, lift at 1. simpl. rewrite H5.
    reflexivity.
  - intros k Hk Hnone. unfold bind, lift. simpl.
    destruct (dict_lookup d "conf_dnsservers") eqn:E1; [|reflexivity].
    destruct (dict_lookup d "conf_gateway") eqn:E2; [|reflexivity].
    destruct (dict_lookup d "conf_ipaddress") eqn:E3; [|reflexivity].
    destruct (dict_lookup d "conf_netmask") eqn:E4; [|reflexivity].
    destruct (dict_lookup d "conf_nettype") eqn:E5; [|reflexivity].
    simpl in Hk.
    destruct Hk as [<-|[<-|[<-|[<-|[<-|[]]]]]]; congruence.
Qed.

Lemma set_hostname_resends_settings_witness :
  AntminerModern.set_hostname
    (sample_miner (answering (VDict [("conf_gateway", VStr "10.0.0.1")])))
    (fun _ _ _ _ _ _ => ret VNone) (VStr "rig7") fresh_handle
  = (Raise KeyError, mkHandle (VBool false) [WebGetNetworkInfo]).
Proof.
  exact (proj2 (set_hostname_resends_settings
                  (sample_miner (answering (VDict [("conf_gateway", VStr "10.0.0.1")])))
                  (fun _ _ _ _ _ _ => ret VNone) (VStr "rig7") fresh_handle
                  [("conf_gateway", VStr "10.0.0.1")] eq_refl)
           "conf_netmask" ltac:(simpl; auto) eq_refl).
Defined.

(** ** Transport errors escape from the MAC extractors only *)

Lemma clean_Ok {A} (a : A) : clean (Ok a).
Proof. intros e; discriminate. Qed.

Lemma clean_rbind {A B} (r : res A) (f : A -> res B) :
  clean r -> (forall a, clean (f a)) -> clean (rbind r f).
Proof.
  intros Hr Hf e. destruct r as [a|e']; simpl.
  - apply Hf.
  - intros [= <-]. apply Hr; reflexivity.
Qed.

Ltac clean_by_cases :=
  intros ?e;
  repeat match goal with
    | |- context [match ?x with _ => _ end] => destruct x
    end;
  simpl; first [discriminate | intros [= <-]; reflexivity].

Lemma clean_getitem_key (v : value) (k : string) : clean (Py.getitem_key v k).
Proof. unfold Py.getitem_key. clean_by_cases. Qed.

Lemma clean_getitem_idx (v : value) (i : Z) : clean (Py.getitem_idx v i).
Proof. unfold Py.getitem_idx. clean_by_cases. Qed.

Lemma clean_get_default (v : value) (k : string) (dflt : value) :
  clean (Py.get_default v k dflt).
Proof. unfold Py.get_default. clean_by_cases. Qed.

Lemma clean_get (v : value) (k : string) : clean (Py.get v k).
Proof. apply clean_get_default. Qed.

Lemma clean_len (v : value) : clean (Py.len v).
Proof. unfold Py.len. clean_by_cases. Qed.

Lemma clean_iter (v : value) : clean (Py.iter v).
Proof. unfold Py.iter. clean_by_cases. Qed.

Lemma clean_truediv (a b : value) : clean (Py.truediv a b).
Proof. unfold Py.truediv. clean_by_cases. Qed.

Lemma clean_round2 (v : value) : clean (Py.round2 v).
Proof. unfold Py.round2. clean_by_cases. Qed.

Lemma clean_round0 (v : value) : clean (Py.round0 v).
Proof. unfold Py.round0. clean_by_cases. Qed.

Lemma clean_gt_zero (v : value) : clean (Py.gt_zero v).
Proof. unfold Py.gt_zero. clean_by_cases. Qed.

Lemma clean_isdigit (v : value) : clean (Py.isdigit v).
Proof. unfold Py.isdigit. clean_by_cases. Qed.

Lemma clean_add (a b : value) : clean (Py.add a b).
Proof. unfold Py.add. clean_by_cases. Qed.

Lemma clean_sum (l : list value) : clean (Py.sum l).
Proof.
  unfold Py.sum. generalize (VInt 0).
  induction l as [|x l IH]; intros acc; simpl; [apply clean_Ok|].
  pose proof (clean_add acc x) as Hadd.
  destruct (Py.add acc x) as [acc'|e']; [apply IH|].
  intros e [= <-]. apply Hadd; reflexivity.
Qed.

Lemma clean_py_float (self : miner) (v : value) : clean (py_float self v).
Proof. unfold py_float. clean_by_cases. Qed.

Lemma clean_py_int (self : miner) (v : value) : clean (py_int self v).
Proof. unfold py_int. clean_by_cases. Qed.

Lemma clean_list_index (len : nat) (idx : value) : clean (list_index len idx).
Proof. unfold list_index. clean_by_cases. Qed.

Create HintDb clean.

#[local] Hint Resolve clean_Ok clean_getitem_key clean_getitem_idx
  clean_get_default clean_get clean_len clean_iter clean_truediv clean_round2
  clean_round0 clean_gt_zero clean_isdigit clean_sum clean_py_float
  clean_py_int clean_list_index : clean.

Ltac cleanse :=
  repeat first
    [ progress auto with clean
    | apply clean_rbind; [|intros ?]
    | match goal with
      | |- clean (if ?b then _ else _) => destruct b
      end ].

Lemma never_lift_clean {St A} (r : res A) :
  clean r -> never_raises is_APIError (@lift St A r).
Proof.
  intros Hr s e. unfold lift; simpl. apply Hr.
Qed.

Lemma never_for_each {St A} (bad : exn -> bool) (l : list A)
  (body : A -> M St unit) :
  (forall x, never_raises bad (body x)) -> never_raises bad (for_each l body).
Proof.
  intros Hbody. induction l as [|x l IH]; [apply never_ret|].
  simpl. apply never_bind; [apply Hbody | intros _; exact IH].
Qed.

Lemma never_put_state {St} (bad : exn -> bool) (s : St) :
  never_raises bad (put_state s).
Proof. intros s0 e; discriminate. Qed.

Lemma clean_slot_of (board : value) (len : nat) : clean (slot_of board len).
Proof.
  unfold slot_of. apply clean_rbind;
    [apply clean_getitem_key | intros idx; apply clean_list_index].
Qed.

Lemma never_assign (board : value) (f : HashBoard -> HashBoard) :
  never_raises is_APIError (AntminerModern.assign board f).
Proof.
  intros s e. rewrite assign_slot_of.
  pose proof (clean_slot_of board (List.length s)) as Hc.
  destruct (slot_of board (List.length s)) as [n|e']; simpl; [discriminate|].
  intros [= <-]. apply Hc; reflexivity.
Qed.

Lemma clean_exec {St} (m : M St unit) (s0 : St) :
  never_raises is_APIError m -> clean (exec m s0).
Proof.
  intros Hm e. unfold exec. specialize (Hm s0).
  destruct (m s0) as [[[]|e'] s]; simpl in *; [discriminate|].
  intros [= <-]. apply Hm; reflexivity.
Qed.

Lemma never_scan (cands : list Z) (width : nat) (probe : Z -> res value)
  (accept : Z -> Z) :
  (forall n, clean (probe n)) ->
  never_raises is_APIError (scan cands width probe accept).
Proof.
  intros Hp. unfold scan.
  apply never_for_each. intros c. apply never_for_each. intros k.
  apply never_bind; [apply never_lift_clean, Hp | intros v].
  apply never_bind; [apply never_get_state | intros off].
  destruct (_ && _); [apply never_put_state | apply never_ret].
Qed.

Lemma never_or_default (dflt : Z) : never_raises is_APIError (or_default dflt).
Proof.
  unfold or_default. apply never_bind; [apply never_get_state | intros off].
  destruct (off =? -1); [apply never_put_state | apply never_ret].
Qed.

Lemma clean_build_board (self : miner) (boards : value) (off i : Z) :
  clean (AntminerOld.build_board self boards off i).
Proof.
  unfold AntminerOld.build_board, AntminerOld.field. cleanse.
Qed.

Lemma clean_fan_offset (api_stats : value) : clean (AntminerOld.fan_offset api_stats).
Proof.
  unfold AntminerOld.fan_offset. apply clean_exec.
  apply never_bind; [|intros _; apply never_or_default].
  apply never_scan. intros n. unfold AntminerOld.fan_probe. cleanse.
Qed.

Lemma clean_board_offset (boards : value) : clean (AntminerOld.board_offset boards).
Proof.
  unfold AntminerOld.board_offset. apply clean_exec.
  apply never_bind; [|intros _; apply never_or_default].
  apply never_scan. intros n. unfold AntminerOld.board_probe. cleanse.
Qed.

Lemma never_try_pure {St A} (bad caught : exn -> bool) (m handler : M St A) :
  never_raises bad m -> never_raises bad handler ->
  never_raises bad (try_except m caught handler).
Proof.
  intros Hm Hh. apply never_try_except; [|exact Hh].
  intros s e H _. exact (Hm s e H).
Qed.

Lemma never_with_local_block {H St} (bad : exn -> bool) (s0 : St) (m : M St unit) :
  never_raises bad m -> never_raises bad (@with_local H St s0 m).
Proof.
  intros Hm. apply never_with_local. intros e. apply Hm.
Qed.

Lemma never_modify {St} (bad : exn -> bool) (g : St -> St) :
  never_raises bad (fun s : St => (Ok tt, g s)).
Proof. intros s e; discriminate. Qed.

#[local] Hint Resolve clean_build_board clean_fan_offset clean_board_offset
  clean_slot_of : clean.

Ltac quiet_all :=
  repeat first
    [ apply never_ret
    | apply never_get_state
    | apply never_set_light
    | apply never_put_state
    | apply never_fetch
    | apply never_assign
    | apply never_modify
    | apply never_lift_clean; cleanse
    | apply never_for_each; intros ?
    | apply never_with_local_block
    | apply never_bind; [|intros ?]
    | apply never_try_covering; [intros ? ?; assumption|]
    | apply never_try_pure
    | match goal with
      | |- never_raises _ (if ?b then _ else _) => destruct b
      | |- never_raises _ (match ?x with _ => _ end) => destruct x
      | |- never_raises _ (let _ := _ in _) => cbv zeta
      end ].

(** Whatever the payload and whatever the transports answer, none of these
    thirteen extractors lets an [APIError] escape: hostname, hashboards,
    fault-light read, expected hashrate, is-mining and uptime of the Modern
    dialect; fault-light read, hostname, fans, hashboards, is-mining and
    uptime of the Old dialect; and the Modern error extractor, whatever its
    summary query does.  The MAC extractors and [get_config] query without
    a guard and are not covered. *)
Theorem transport_errors_contained (self : miner) (payload : value) :
  never_raises is_APIError (AntminerModern._get_hostname self payload)
  /\ never_raises is_APIError (AntminerModern._get_hashboards self)
  /\ never_raises is_APIError (AntminerModern._get_fault_light self payload)
  /\ never_raises is_APIError (AntminerModern._get_expected_hashrate self payload)
  /\ never_raises is_APIError (AntminerModern._is_mining self payload)
  /\ never_raises is_APIError (AntminerModern._get_uptime self payload)
  /\ never_raises is_APIError (AntminerOld._get_fault_light self payload)
  /\ never_raises is_APIError (AntminerOld._get_hostname self payload)
  /\ never_raises is_APIError (AntminerOld._get_fans self payload)
  /\ never_raises is_APIError (AntminerOld._get_hashboards self payload)
  /\ never_raises is_APIError (AntminerOld._is_mining self payload)
  /\ never_raises is_APIError (AntminerOld._get_uptime self payload)
  /\ (forall (E : Type) (X19Error : value -> E) (summary : M handle value),
        never_raises is_APIError
          (AntminerModern._get_errors X19Error summary payload)).
Proof.
  repeat match goal with |- _ /\ _ => split end.
  - unfold AntminerModern._get_hostname. quiet_all.
  - unfold AntminerModern._get_hashboards, AntminerModern.read_chains,
      AntminerModern.board_step, AntminerModern.mean,
      AntminerModern.nonzero_readings.
    quiet_all.
  - unfold AntminerModern._get_fault_light. quiet_all.
  - unfold AntminerModern._get_expected_hashrate. quiet_all.
  - unfold AntminerModern._is_mining. quiet_all.
  - unfold AntminerModern._get_uptime. quiet_all.
  - unfold AntminerOld._get_fault_light. quiet_all.
  - unfold AntminerOld._get_hostname. quiet_all.
  - unfold AntminerOld._get_fans, AntminerOld.read_fans. quiet_all.
  - unfold AntminerOld._get_hashboards, AntminerOld.read_boards,
      AntminerOld.board_step.
    quiet_all.
  - unfold AntminerOld._is_mining. quiet_all.
  - unfold AntminerOld._get_uptime. quiet_all.
  - intros E X19Error summary.
    unfold AntminerModern._get_errors, AntminerModern.error_of_item.
    quiet_all.
Qed.
